(** * Legal Situation Analyzer: the analysis core of [main.py]

    A shallow embedding of the decision logic of [LegalSituationAnalyzer]
    (entity extraction, categorisation, sentiment, advice and urgency) and
    the properties of it that the design document states.

    Python values are modelled as follows.
    - A [str] is a sequence of Unicode code points: [list N].  Literals are
      written as UTF-8 byte strings and decoded by [py].
    - [str.lower], the regular-expression classes [\d], [\w] and [\s] and
      the letter equality of [re.IGNORECASE] depend on the Unicode database
      of the interpreter.  They are parameters of the development (the class
      [Unicode]): every theorem holds for every such table.  [ascii_tables]
      are the tables on ASCII code points, used to evaluate the code on
      concrete inputs.  Outside ASCII they leave [str.lower] the identity
      (exact for a caseless script such as Devanagari, not for cased letters)
      and make every class false (not exact: Devanagari letters are word
      characters, Devanagari digits are digits, and under [re.IGNORECASE]
      the Kelvin sign equals K); no evaluation in this file depends on a
      class or on the case of a character outside ASCII.
    - A value returned by an external service is duck-typed: [pyval].
    - A [try: ... except:] block is a computation in the option monad,
      [None] standing for a raised exception, closed by [default]. *)

From Stdlib Require Import NArith QArith Ascii String.
From stdpp Require Import base option list gmap.

Close Scope Q_scope.
Local Open Scope N_scope.

(** ** Strings *)

Module Str.

Abbreviation char := N (only parsing).
Abbreviation str := (list N) (only parsing).

(** Decoding of the UTF-8 bytes of a literal into code points. *)
Definition cont (b : N) : N := N.land b 63.

Fixpoint utf8_decode (bs : list N) : str :=
  match bs with
  | [] => []
  | b0 :: r0 =>
      if b0 <? 128 then b0 :: utf8_decode r0
      else if b0 <? 224 then
        match r0 with
        | b1 :: r1 => (N.land b0 31 * 64 + cont b1) :: utf8_decode r1
        | [] => [b0]
        end
      else if b0 <? 240 then
        match r0 with
        | b1 :: b2 :: r2 =>
            (N.land b0 15 * 4096 + cont b1 * 64 + cont b2) :: utf8_decode r2
        | _ => [b0]
        end
      else
        match r0 with
        | b1 :: b2 :: b3 :: r3 =>
            (N.land b0 7 * 262144 + cont b1 * 4096 + cont b2 * 64 + cont b3)
              :: utf8_decode r3
        | _ => [b0]
        end
  end.

Definition py (s : string) : str :=
  utf8_decode (map N_of_ascii (list_ascii_of_string s)).

(** [a in b] on strings: [a] occurs in [b] as a contiguous substring. *)
Fixpoint starts_with (a b : str) : bool :=
  match a, b with
  | [], _ => true
  | x :: a', y :: b' => (x =? y) && starts_with a' b'
  | _ :: _, [] => false
  end.

Fixpoint contains (a b : str) : bool :=
  starts_with a b ||
  match b with
  | [] => false
  | _ :: b' => contains a b'
  end.

(** Number of positions of [b] at which an occurrence of [a] starts. *)
Fixpoint occurrences (a b : str) : nat :=
  match b with
  | [] => 0%nat
  | _ :: b' => ((if starts_with a b then 1 else 0) + occurrences a b')%nat
  end.

(** [sep.join(l)] *)
Fixpoint join (sep : str) (l : list str) : str :=
  match l with
  | [] => []
  | [x] => x
  | x :: l' => x ++ sep ++ join sep l'
  end.

(** [str.lower] on ASCII text. *)
Definition ascii_lower_char (c : char) : char :=
  if (65 <=? c) && (c <=? 90) then c + 32 else c.
Definition ascii_lower (s : str) : str := map ascii_lower_char s.

(** [\d] and [\w] on ASCII text. *)
Definition ascii_digit (c : char) : bool := (48 <=? c) && (c <=? 57).
Definition ascii_word (c : char) : bool :=
  ascii_digit c || ((65 <=? c) && (c <=? 90)) || ((97 <=? c) && (c <=? 122))
  || (c =? 95).

End Str.
Import Str.

(** ** Duck-typed values of the external services *)

Module Py.

#[local] Set Warnings "-register-all".

Inductive pyval :=
| PyNone
| PyNum (q : Q)
| PyStr (s : str)
| PyList (l : list pyval)
| PyDict (d : gmap str pyval).

(** [v[k]] for a string key [k]: defined on a dict that has the key
    (otherwise [KeyError] or [TypeError]). *)
Definition getitem_key (v : pyval) (k : str) : option pyval :=
  match v with
  | PyDict d => d !! k
  | _ => None
  end.

(** [v[0]]: the first element of a list, the first character of a string
    ([IndexError] when empty; [KeyError] on a dict, whose keys are strings
    here; [TypeError] on the rest). *)
Definition getitem_0 (v : pyval) : option pyval :=
  match v with
  | PyList l => l !! 0%nat
  | PyStr s => c ← s !! 0%nat; Some (PyStr [c])
  | _ => None
  end.

(** [d.get(k, dflt)] on a dict [d] with string keys: [TypeError] when the
    key is unhashable (a list or a dict). *)
Definition dict_get {V} (d : gmap str V) (k : pyval) (dflt : V) : option V :=
  match k with
  | PyStr s => Some (default dflt (d !! s))
  | PyNone | PyNum _ => Some dflt
  | PyList _ | PyDict _ => None
  end.

(** [v == s] for a string literal [s]. *)
Definition eq_str (v : pyval) (s : str) : bool :=
  match v with
  | PyStr s' => bool_decide (s' = s)
  | _ => false
  end.

(** A number within [0, 1]. *)
Definition in_unit (v : pyval) : Prop :=
  match v with
  | PyNum q => (0 <= q)%Q /\ (q <= 1)%Q
  | _ => False
  end.

End Py.
Import Py.

(** ** Regular expressions

    The fragment of [re] that the two patterns of [extract_key_info] use,
    with the backtracking semantics of the interpreter: [run] lists the
    matches that start at the current position in the order in which the
    backtracking matcher finds them (greedy repetition tries the longest
    first, alternation the left branch first), so the match that
    [re.findall] reports is the head of that list. *)

Module Re.

Inductive regex :=
| Eps
| Class (p : char → bool)               (* a character class: \d, \s, [-/], a literal *)
| Boundary (w : char → bool)            (* \b, for the word class w *)
| Seq (r1 r2 : regex)
| Alt (r1 r2 : regex)
| Rep (r : regex) (lo : nat) (hi : option nat).   (* r{lo,hi}, r* and r+ (greedy) *)

(** A match: the text consumed, the character before the new position,
    and the rest of the input. *)
Abbreviation result := (str * option char * str)%type (only parsing).

Definition at_boundary (w : char → bool) (prev : option char) (s : str) : bool :=
  xorb (from_option w false prev) (from_option w false (head s)).

(** Greedy repetition of a matcher [f], between [lo] and [hi] times: one
    more iteration is tried before stopping. *)
Fixpoint rep_run (f : option char → str → list result)
    (lo hi : nat) (prev : option char) (s : str) : list result :=
  let stop := match lo with O => [([], prev, s)] | S _ => [] end in
  match hi with
  | O => stop
  | S hi' =>
      ('(m1, p1, s1) ← f prev s;
       '(m2, p2, s2) ← rep_run f (pred lo) hi' p1 s1;
       [(m1 ++ m2, p2, s2)]) ++ stop
  end.

(** An unbounded repetition iterates at most once per character left. *)
Fixpoint run (r : regex) (prev : option char) (s : str) : list result :=
  match r with
  | Eps => [([], prev, s)]
  | Class p =>
      match s with
      | c :: s' => if p c then [([c], Some c, s')] else []
      | [] => []
      end
  | Boundary w => if at_boundary w prev s then [([], prev, s)] else []
  | Seq r1 r2 =>
      '(m1, p1, s1) ← run r1 prev s;
      '(m2, p2, s2) ← run r2 p1 s1;
      [(m1 ++ m2, p2, s2)]
  | Alt r1 r2 => run r1 prev s ++ run r2 prev s
  | Rep r lo hi => rep_run (run r) lo (from_option id (length s) hi) prev s
  end.

(** [re.findall(r, s)] for a pattern without groups that matches no empty
    string: the leftmost match at the first position that has one, then
    the search resumes where that match ended.  [skip] counts the
    positions still covered by the last match. *)
Fixpoint findall_from (r : regex) (skip : nat) (prev : option char) (s : str)
  : list str :=
  match s with
  | [] => []
  | c :: s' =>
      match skip with
      | S k => findall_from r k (Some c) s'
      | O =>
          match run r prev s with
          | (m, _, _) :: _ => m :: findall_from r (pred (length m)) (Some c) s'
          | [] => findall_from r 0 (Some c) s'
          end
      end
  end.

Definition findall (r : regex) (s : str) : list str := findall_from r 0 None s.

Definition Plus (r : regex) : regex := Rep r 1 None.
Definition Star (r : regex) : regex := Rep r 0 None.
Definition one_of (cs : str) : regex := Class (λ c, bool_decide (c ∈ cs)).
Definition literal (eqc : char → char → bool) (cs : str) : regex :=
  foldr (λ c r, Seq (Class (eqc c)) r) Eps cs.
Definition alt (rs : list regex) (r : regex) : regex := foldr Alt r rs.

End Re.
Import Re.

(** ** The Unicode tables of the interpreter *)

Class Unicode := {
  str_lower : str → str;          (* str.lower *)
  is_digit : char → bool;         (* \d *)
  is_word : char → bool;          (* \w *)
  is_space : char → bool;         (* \s *)
  ci_eq : char → char → bool      (* equality of characters under re.IGNORECASE *)
}.

Definition ascii_tables : Unicode := {|
  str_lower := ascii_lower;
  is_digit := ascii_digit;
  is_word := ascii_word;
  is_space := λ c, bool_decide (c ∈ [32; 9; 10; 11; 12; 13; 28; 29; 30; 31]);
  ci_eq := λ a b, ascii_lower_char a =? ascii_lower_char b
|}.

(** ** Data model *)

Inductive urgency := LOW | MEDIUM | HIGH.

Record ExtractedInfo := {
  parties_involved : list str;
  legal_keywords : list str;
  dates : list str;
  amounts : list str;
  locations : list str
}.

Record CategoryResult := {
  category : pyval;
  confidence : pyval;
  subcategories : list str
}.

Record AdviceResult := {
  recommended_steps : list str;
  applicable_laws : list str;
  urgency_level : urgency
}.

Record template := { steps : list str; laws : list str }.

(** ** Static tables *)

(** [self.legal_categories], in insertion order. *)
Definition legal_categories_items : list (str * list str) :=
  [ (py "family", [py "divorce"; py "custody"; py "marriage"; py "property"; py "inheritance"]);
    (py "criminal", [py "theft"; py "assault"; py "fraud"; py "harassment"; py "violence"]);
    (py "civil", [py "contract"; py "debt"; py "defamation"; py "negligence"; py "breach"]);
    (py "property", [py "rent"; py "eviction"; py "ownership"; py "dispute"; py "registration"]);
    (py "employment", [py "salary"; py "termination"; py "harassment"; py "rights"; py "compensation"]);
    (py "consumer", [py "refund"; py "warranty"; py "service"; py "product"; py "complaint"]) ].

Definition legal_categories : gmap str (list str) := list_to_map legal_categories_items.

(** [keywords.items()] of [extract_key_info], in insertion order. *)
Definition keywords : list (str * list str) :=
  [ (py "english", [py "contract"; py "agreement"; py "dispute"; py "court"; py "lawyer";
                    py "case"; py "legal"; py "law"]);
    (py "hindi", [py "कानूनी"; py "न्यायालय"; py "वकील"; py "मामला"; py "विवाद"; py "समझौता"]);
    (py "marathi", [py "कायदेशीर"; py "न्यायालय"; py "वकील"; py "प्रकरण"; py "वाद"; py "करार"]) ].

Definition urgent_keywords : list str :=
  [ py "emergency"; py "urgent"; py "immediate"; py "threat"; py "violence";
    py "harassment"; py "eviction" ].

(** [advice_templates] of [generate_legal_advice]. *)
Definition family_template : template :=
  {| steps :=
       [ py "Document all relevant communications and agreements";
         py "Consult with a family law specialist";
         py "Consider mediation before litigation";
         py "Gather all financial documents";
         py "Understand your rights under family laws" ];
     laws :=
       [ py "Hindu Marriage Act, 1955";
         py "Indian Succession Act, 1925";
         py "Protection of Women from Domestic Violence Act, 2005";
         py "Guardians and Wards Act, 1890" ] |}.

Definition criminal_template : template :=
  {| steps :=
       [ py "File an FIR at the nearest police station immediately";
         py "Preserve all evidence related to the incident";
         py "Consult with a criminal lawyer";
         py "Cooperate with police investigation";
         py "Keep records of all proceedings" ];
     laws :=
       [ py "Indian Penal Code, 1860";
         py "Code of Criminal Procedure, 1973";
         py "Indian Evidence Act, 1872";
         py "Protection of Women from Sexual Harassment Act, 2013" ] |}.

Definition civil_template : template :=
  {| steps :=
       [ py "Send a legal notice to the other party";
         py "Gather all relevant documents and evidence";
         py "Attempt alternative dispute resolution";
         py "File a civil suit if necessary";
         py "Maintain detailed records" ];
     laws :=
       [ py "Code of Civil Procedure, 1908";
         py "Indian Contract Act, 1872";
         py "Specific Relief Act, 1963";
         py "Limitation Act, 1963" ] |}.

Definition property_template : template :=
  {| steps :=
       [ py "Verify property documents and titles";
         py "Check for any encumbrances or disputes";
         py "Consult with a property lawyer";
         py "Register the property properly";
         py "Maintain all transaction records" ];
     laws :=
       [ py "Transfer of Property Act, 1882";
         py "Registration Act, 1908";
         py "Indian Stamp Act, 1899";
         py "Real Estate Regulation Act, 2016" ] |}.

Definition employment_template : template :=
  {| steps :=
       [ py "Review your employment contract";
         py "Document workplace incidents";
         py "File complaints with appropriate authorities";
         py "Seek legal consultation";
         py "Understand your labor rights" ];
     laws :=
       [ py "Industrial Disputes Act, 1947";
         py "Minimum Wages Act, 1948";
         py "Employees' Provident Fund Act, 1952";
         py "Sexual Harassment of Women at Workplace Act, 2013" ] |}.

Definition consumer_template : template :=
  {| steps :=
       [ py "File a complaint with consumer forum";
         py "Gather purchase receipts and warranties";
         py "Document all communications with seller";
         py "Seek compensation for damages";
         py "Know your consumer rights" ];
     laws :=
       [ py "Consumer Protection Act, 2019";
         py "Indian Contract Act, 1872";
         py "Sale of Goods Act, 1930";
         py "Competition Act, 2002" ] |}.

Definition advice_templates_items : list (str * template) :=
  [ (py "family", family_template);
    (py "criminal", criminal_template);
    (py "civil", civil_template);
    (py "property", property_template);
    (py "employment", employment_template);
    (py "consumer", consumer_template) ].

Definition advice_templates : gmap str template := list_to_map advice_templates_items.

(** ** The analyzer *)

Section LegalSituationAnalyzer.

Context `{Unicode}.

Local Infix "⋅" := Seq (at level 60, right associativity).

(** [r'\b\d{1,2}[-/]\d{1,2}[-/]\d{2,4}\b'] *)
Definition date_pattern : regex :=
  Boundary is_word ⋅ Rep (Class is_digit) 1 (Some 2%nat) ⋅ one_of (py "-/")
    ⋅ Rep (Class is_digit) 1 (Some 2%nat) ⋅ one_of (py "-/")
    ⋅ Rep (Class is_digit) 2 (Some 4%nat) ⋅ Boundary is_word.

(** [r'₹\s*\d+(?:,\d+)*|\$\s*\d+(?:,\d+)*|\d+\s*(?:rupees|dollars|lakh|crore)']
    compiled with [re.IGNORECASE]; the currency signs and the comma have no
    case. *)
Definition amount_pattern : regex :=
  let digits := Plus (Class is_digit) in
  let spaces := Star (Class is_space) in
  let grouped := digits ⋅ Star (literal N.eqb (py ",") ⋅ digits) in
  alt [ literal N.eqb (py "₹") ⋅ spaces ⋅ grouped;
        literal N.eqb (py "$") ⋅ spaces ⋅ grouped ]
      (digits ⋅ spaces ⋅
         alt [ literal ci_eq (py "rupees"); literal ci_eq (py "dollars");
               literal ci_eq (py "lakh") ]
             (literal ci_eq (py "crore"))).

(** The two nested loops over [keywords.items()], appending to
    [extracted_info['legal_keywords']]. *)
Definition match_keywords (text_lower : str) : list str :=
  foldl (λ acc '(lang, words),
           foldl (λ acc word,
                    if contains (str_lower word) text_lower
                    then acc ++ [word] else acc)
                 acc words)
        [] keywords.

Definition extract_key_info (text : str) : ExtractedInfo :=
  let found_dates := findall date_pattern text in
  let found_amounts := findall amount_pattern text in
  let text_lower := str_lower text in
  {| parties_involved := [];
     legal_keywords := match_keywords text_lower;
     dates := found_dates;
     amounts := found_amounts;
     locations := [] |}.

Definition default_category : CategoryResult :=
  {| category := PyStr (py "general");
     confidence := PyNum (1 # 2);
     subcategories := [] |}.

(** [classifier text labels] is the call [self.classifier(text, categories)]
    of the zero-shot service: [None] when it raises. *)
Definition categorize_legal_issue
    (classifier : str → list str → option pyval) (text : str) : CategoryResult :=
  default default_category
    (let categories := legal_categories_items.*1 in
     result ← classifier text categories;
     labels ← getitem_key result (py "labels");
     primary_category ← getitem_0 labels;
     scores ← getitem_key result (py "scores");
     score ← getitem_0 scores;
     subs ← dict_get legal_categories primary_category [];
     Some {| category := primary_category;
             confidence := score;
             subcategories := subs |}).

Definition default_sentiment : pyval :=
  PyDict {[ py "label" := PyStr (py "NEUTRAL"); py "score" := PyNum (1 # 2) ]}.

(** [sentiment_analyzer text] is the call [self.sentiment_analyzer(text)]:
    [None] when it raises. *)
Definition analyze_sentiment
    (sentiment_analyzer : str → option pyval) (text : str) : pyval :=
  default default_sentiment
    (result ← sentiment_analyzer text;
     getitem_0 result).

Definition assess_urgency (text : str) (category : pyval) : urgency :=
  let text_lower := str_lower text in
  let urgency_score :=
    foldl (λ score keyword,
             if contains keyword text_lower then (score + 1)%Z else score)
          0%Z urgent_keywords in
  let urgency_score :=
    if eq_str category (py "criminal") then (urgency_score + 2)%Z
    else urgency_score in
  if (3 <=? urgency_score)%Z then HIGH
  else if (1 <=? urgency_score)%Z then MEDIUM
  else LOW.

Definition amount_step (found_amounts : list str) : str :=
  py "The monetary value involved (" ++ join (py ", ") found_amounts
    ++ py ") may affect the jurisdiction and court fees".

Definition limitation_step : str :=
  py "Pay attention to limitation periods for legal action".

(** [None] is the [TypeError] of [advice_templates.get] on an unhashable
    category (or a [KeyError] of [advice_templates['civil']]). *)
Definition generate_legal_advice
    (category : pyval) (text : str) (extracted_info : ExtractedInfo)
  : option AdviceResult :=
  fallback ← advice_templates !! py "civil";
  template ← dict_get advice_templates category fallback;
  let customized_steps := steps template in
  let customized_steps :=
    match amounts extracted_info with
    | [] => customized_steps
    | _ :: _ => customized_steps ++ [amount_step (amounts extracted_info)]
    end in
  let customized_steps :=
    match dates extracted_info with
    | [] => customized_steps
    | _ :: _ => customized_steps ++ [limitation_step]
    end in
  Some {| recommended_steps := customized_steps;
          applicable_laws := laws template;
          urgency_level := assess_urgency text category |}.

End LegalSituationAnalyzer.

(** ** Spec-level notions used in the statements *)

(** The tier of a score: the thresholds of [assess_urgency]. *)
Definition tier_of_score (score : Z) : urgency :=
  if (3 <=? score)%Z then HIGH else if (1 <=? score)%Z then MEDIUM else LOW.

(** The categorical bonus. *)
Definition criminal_bonus (category : pyval) : Z :=
  if eq_str category (py "criminal") then 2%Z else 0%Z.

(** The number of urgent keywords that occur in the lower-cased text, each
    counted once. *)
Definition keyword_hits `{Unicode} (text : str) : nat :=
  length (filter (λ keyword, contains keyword (str_lower text)) urgent_keywords).

(** The score as the design document words it: the number of occurrences of
    the urgent keywords in the lower-cased text, plus the bonus. *)
Definition occurrence_score `{Unicode} (text : str) (category : pyval) : Z :=
  (Z.of_nat (foldr (λ keyword n, occurrences keyword (str_lower text) + n)%nat
                   0%nat urgent_keywords)
   + criminal_bonus category)%Z.

Definition tier_rank (u : urgency) : nat :=
  match u with LOW => 0 | MEDIUM => 1 | HIGH => 2 end.

Definition tier_le (a b : urgency) : Prop := (tier_rank a ≤ tier_rank b)%nat.

(** The six keys of [advice_templates]. *)
Definition known_categories : list str := legal_categories_items.*1.

(** The seven values of [CategoryResult.category]. *)
Definition enumerated_categories : list str := known_categories ++ [py "general"].

(** Every entry of the per-language keyword lists, by language group then
    word order. *)
Definition all_keywords : list str := concat (keywords.*2).

(** The words listed in more than one language list. *)
Definition shared_keywords : list str := [py "न्यायालय"; py "वकील"].

(** Number of entries of [l] equal to [w]. *)
Definition count (w : str) (l : list str) : nat := length (filter (λ x, x = w) l).

(** The template that [generate_legal_advice] selects for a category string. *)
Definition template_for (category : str) : template :=
  default civil_template (advice_templates !! category).

(** The steps that the extracted entities add to the base steps. *)
Definition customization (extracted_info : ExtractedInfo) : list str :=
  match amounts extracted_info with
  | [] => []
  | _ :: _ => [amount_step (amounts extracted_info)]
  end ++
  match dates extracted_info with
  | [] => []
  | _ :: _ => [limitation_step]
  end.

Definition one_if_nonempty {A} (l : list A) : nat :=
  match l with [] => 0 | _ :: _ => 1 end.

(** [result['labels'][0]] and [result['scores'][0]]. *)
Definition top_label (result : pyval) : option pyval :=
  getitem_key result (py "labels") ≫= getitem_0.

Definition top_score (result : pyval) : option pyval :=
  getitem_key result (py "scores") ≫= getitem_0.

(** Well-formed responses of the two services, for the examples:
    [{'labels': [label], 'scores': [score]}] and
    [[{'label': label, 'score': score}]]. *)
Definition classification (label : str) (score : Q) : pyval :=
  PyDict {[ py "labels" := PyList [PyStr label]; py "scores" := PyList [PyNum score] ]}.

Definition sentiment_of (label : str) (score : Q) : pyval :=
  PyList [PyDict {[ py "label" := PyStr label; py "score" := PyNum score ]}].

Definition no_entities : ExtractedInfo :=
  {| parties_involved := []; legal_keywords := []; dates := [];
     amounts := []; locations := [] |}.

(** A label that can be a dictionary key. *)
Definition hashable (v : pyval) : bool :=
  match v with
  | PyList _ | PyDict _ => false
  | _ => true
  end.

(** The character before the position reached after consuming [m]. *)
Definition last_or (prev : option char) (m : str) : option char :=
  match last m with Some c => Some c | None => prev end.

(** A matcher consumes a prefix of its input and reports the character
    before the position it reaches. *)
Definition consumes_prefix (f : option char → str → list (str * option char * str))
  : Prop :=
  ∀ prev s m q s', (m, q, s') ∈ f prev s → s = m ++ s' ∧ q = last_or prev m.

(** The shape of a date, as [date_pattern] has it: one or two digits, a
    separator, one or two digits, a separator, two to four digits. *)
Definition date_shape `{Unicode} (g1 : str) (c1 : char) (g2 : str) (c2 : char) (g3 : str)
  : Prop :=
  Forall is_digit g1 ∧ (1 ≤ length g1 ≤ 2)%nat ∧ c1 ∈ py "-/"
  ∧ Forall is_digit g2 ∧ (1 ≤ length g2 ≤ 2)%nat ∧ c2 ∈ py "-/"
  ∧ Forall is_digit g3 ∧ (2 ≤ length g3 ≤ 4)%nat.

Definition is_date `{Unicode} (d : str) : Prop :=
  ∃ g1 c1 g2 c2 g3, d = g1 ++ c1 :: g2 ++ c2 :: g3 ∧ date_shape g1 c1 g2 c2 g3.

(** [d] stands in [pre ++ d ++ post] between two word boundaries. *)
Definition word_bounded `{Unicode} (pre d post : str) : Prop :=
  at_boundary is_word (last pre) (d ++ post) = true
  ∧ at_boundary is_word (last d) post = true.

(** ** Translation, summary and the analysis handler

    The remaining methods of [LegalSituationAnalyzer] and the handler of the
    analysis button in [main].  The formatting built-ins of the interpreter
    ([str.title], the [.2%] format of a number that converts to a float, the
    default format of a value that is no string) are parameters (the class
    [Formatting]);
    [str.strip] removes the characters of the whitespace table [is_space],
    the one that [\s] uses. *)

Class Formatting := {
  str_title : str → str;             (* str.title *)
  format_percent : Q → str;          (* format(x, '.2%') of a number x within the float range *)
  format_value : pyval → str         (* format(v, '') of a value v that is no string *)
}.

(** A plain instance, to run the definitions: [str.title] on ASCII text, and
    the percentage of a rational rounded half to even at two decimals (the
    interpreter rounds the floating-point product by 100, which can differ in
    the last digit). *)
Fixpoint ascii_title_from (prev_cased : bool) (s : str) : str :=
  match s with
  | [] => []
  | c :: s' =>
      if (65 <=? c) && (c <=? 90) then
        (if prev_cased then c + 32 else c) :: ascii_title_from true s'
      else if (97 <=? c) && (c <=? 122) then
        (if prev_cased then c else c - 32) :: ascii_title_from true s'
      else c :: ascii_title_from false s'
  end.

Fixpoint decimal_from (fuel : nat) (n : N) (acc : str) : str :=
  match fuel with
  | O => acc
  | S fuel' =>
      let acc' := (48 + n mod 10) :: acc in
      if n <? 10 then acc' else decimal_from fuel' (n / 10) acc'
  end.

Definition decimal (n : N) : str := decimal_from (S (N.to_nat (N.log2 n))) n [].

Definition round_half_even (n d : Z) : Z :=
  let k := (n / d)%Z in
  let r := (n mod d)%Z in
  if (d <? 2 * r)%Z then (k + 1)%Z
  else if (2 * r =? d)%Z then (k + k mod 2)%Z
  else k.

Definition plain_percent (q : Q) : str :=
  let hundredths :=
    Z.to_N (round_half_even (Z.abs (Qnum q) * 10000) (Z.pos (Qden q))) in
  (if (Qnum q <? 0)%Z then py "-" else [])
    ++ decimal (hundredths / 100) ++ py "."
    ++ decimal (hundredths mod 100 / 10) ++ decimal (hundredths mod 10) ++ py "%".

Definition plain_formatting : Formatting := {|
  str_title := ascii_title_from false;
  format_percent := plain_percent;
  format_value := λ _, py "?"
|}.

(** The services that [self] holds: [translator.detect(text).lang],
    [translator.translate(text, dest=target).text], [self.classifier] and
    [self.sentiment_analyzer]; [None] when the call raises. *)
Record Analyzer := {
  translator_detect : str → option pyval;
  translator_translate : str → str → option pyval;
  the_classifier : str → list str → option pyval;
  the_sentiment_analyzer : str → option pyval
}.

Record AnalysisResults := {
  original_text : str;
  translated_text : str;
  detected_lang : pyval;
  summary : str;
  advice : AdviceResult;
  category_info : CategoryResult;
  extracted_info : ExtractedInfo;
  sentiment : pyval
}.

Section Handler.

Context `{Unicode} `{Formatting}.

Definition detect_language (self : Analyzer) (text : str) : pyval :=
  default (PyStr (py "en")) (translator_detect self text).

Definition translate_text (self : Analyzer) (text target_lang : str) : pyval :=
  default (PyStr text)
    (if eq_str (detect_language self text) target_lang then Some (PyStr text)
     else translator_translate self text target_lang).

(** [str.strip()] *)
Fixpoint lstrip (s : str) : str :=
  match s with
  | [] => []
  | c :: s' => if is_space c then lstrip s' else s
  end.

Definition rstrip (s : str) : str := reverse (lstrip (reverse s)).

Definition strip (s : str) : str := rstrip (lstrip s).

Definition nl : str := [10].
Definition indent : str := py "        ".

(** [', '.join(l) if l else 'None'] *)
Definition joined_or_none (l : list str) : str :=
  match l with
  | [] => py "None"
  | _ :: _ => join (py ", ") l
  end.

(** A number is an int or a finite float.  The [%] format converts it to a
    float first: an int that rounds beyond the largest finite double, that
    is with [2^1024 - 2^970 <= |x|], raises [OverflowError]. *)
Definition float_bound : Z := (2 ^ 1024 - 2 ^ 970)%Z.

Definition converts_to_float (q : Q) : bool :=
  (Z.abs (Qnum q) <? float_bound * Z.pos (Qden q))%Z.

(** [f'{v:.2%}']: defined on a number that converts to a float. *)
Definition percent (v : pyval) : option str :=
  match v with
  | PyNum q => if converts_to_float q then Some (format_percent q) else None
  | _ => None
  end.

(** [f'{v}'] *)
Definition formatted (v : pyval) : str :=
  match v with
  | PyStr s => s
  | _ => format_value v
  end.

(** [v.title()]: defined on a string. *)
Definition title (v : pyval) : option str :=
  match v with
  | PyStr s => Some (str_title s)
  | _ => None
  end.

(** [None] is the exception that a replacement field of the f-string
    raises. *)
Definition create_situation_summary
    (original_text translated_text : str) (category_info : CategoryResult)
    (extracted_info : ExtractedInfo) (sentiment : pyval) : option str :=
  category_title ← title (category category_info);
  confidence_level ← percent (confidence category_info);
  sentiment_label ← getitem_key sentiment (py "label");
  sentiment_score ← getitem_key sentiment (py "score") ≫= percent;
  Some (strip
    (nl
     ++ indent ++ py "**LEGAL SITUATION SUMMARY**" ++ nl
     ++ indent ++ nl
     ++ indent ++ py "**Primary Category:** " ++ category_title ++ nl
     ++ indent ++ py "**Confidence Level:** " ++ confidence_level ++ nl
     ++ indent ++ nl
     ++ indent ++ py "**Key Information Extracted:**" ++ nl
     ++ indent ++ py "- Legal Keywords Found: "
       ++ joined_or_none (legal_keywords extracted_info) ++ nl
     ++ indent ++ py "- Dates Mentioned: " ++ joined_or_none (dates extracted_info) ++ nl
     ++ indent ++ py "- Monetary Values: " ++ joined_or_none (amounts extracted_info) ++ nl
     ++ indent ++ nl
     ++ indent ++ py "**Situation Sentiment:** " ++ formatted sentiment_label
       ++ py " (Confidence: " ++ sentiment_score ++ py ")" ++ nl
     ++ indent ++ nl
     ++ indent ++ py "**Situation Description:**" ++ nl
     ++ indent ++ translated_text ++ nl
     ++ indent)).

(** A value used as text: [re.findall] raises [TypeError] on the rest. *)
Definition as_text (v : pyval) : option str :=
  match v with
  | PyStr s => Some s
  | _ => None
  end.

(** The body of [if user_input:] under the analysis button of [main]:
    [None] when a step raises, which nothing in [main] catches. *)
Definition analyze (self : Analyzer) (user_input : str) : option AnalysisResults :=
  let lang := detect_language self user_input in
  text ← as_text (translate_text self user_input (py "en"));
  let info := extract_key_info text in
  let cat := categorize_legal_issue (the_classifier self) text in
  let sent := analyze_sentiment (the_sentiment_analyzer self) text in
  report ← create_situation_summary user_input text cat info sent;
  adv ← generate_legal_advice (category cat) text info;
  Some {| original_text := user_input;
          translated_text := text;
          detected_lang := lang;
          summary := report;
          advice := adv;
          category_info := cat;
          extracted_info := info;
          sentiment := sent |}.

(** The analysis button, on [st.session_state.analysis_results]: an empty
    input is not analysed. *)
Definition analyze_button (self : Analyzer) (user_input : str)
    (analysis_results : option AnalysisResults) : option (option AnalysisResults) :=
  match user_input with
  | [] => Some analysis_results
  | _ :: _ => results ← analyze self user_input; Some (Some results)
  end.

End Handler.

(** An analyzer whose four services all raise. *)
Definition failing_services : Analyzer :=
  {| translator_detect := λ _, None;
     translator_translate := λ _ _, None;
     the_classifier := λ _ _, None;
     the_sentiment_analyzer := λ _, None |}.

(** A date token at a position: the input [s], preceded by the character
    [prev], starts with the date [d] between two word boundaries. *)
Definition date_token `{Unicode} (prev : option char) (s d post : str) : Prop :=
  s = d ++ post ∧ is_date d
  ∧ at_boundary is_word prev s = true
  ∧ at_boundary is_word (last d) post = true.

(** The scan of [re.findall] for dates, in terms of tokens: a position where
    no date token starts is passed, a date token is reported and the scan
    resumes after it, to the end of the text. *)
Inductive date_scan `{Unicode} : option char → str → list str → Prop :=
| scan_end prev : date_scan prev [] []
| scan_pass prev c s ds :
    (∀ d post, ¬ date_token prev (c :: s) d post) →
    date_scan (Some c) s ds →
    date_scan prev (c :: s) ds
| scan_report prev s d post ds :
    date_token prev s d post →
    date_scan (last d) post ds →
    date_scan prev s (d :: ds).

(** A number that the [.2%] format accepts. *)
Definition formattable (v : pyval) : Prop :=
  ∃ q, v = PyNum q ∧ converts_to_float q = true.

(** Every match of [r] satisfies [P]. *)
Definition matches_all (r : regex) (P : str → Prop) : Prop :=
  ∀ prev s m q s', (m, q, s') ∈ run r prev s → P m.

(** The shape of an amount, as [amount_pattern] has it: a currency sign,
    whitespace, then digits with comma-separated groups of digits; or
    digits, whitespace, then one of four unit words in any letter case. *)
Definition digit_run `{Unicode} (ds : str) : Prop :=
  Forall is_digit ds ∧ (1 ≤ length ds)%nat.

Definition grouped_digits `{Unicode} (g : str) : Prop :=
  ∃ ds groups,
    g = ds ++ concat groups ∧ digit_run ds
    ∧ Forall (λ group, ∃ ds', group = py "," ++ ds' ∧ digit_run ds') groups.

Definition unit_words : list str :=
  [py "rupees"; py "dollars"; py "lakh"; py "crore"].

Definition currency_amount `{Unicode} (d : str) : Prop :=
  ∃ sign sp g,
    d = sign ++ sp ++ g ∧ sign ∈ [py "₹"; py "$"]
    ∧ Forall is_space sp ∧ grouped_digits g.

Definition unit_amount `{Unicode} (d : str) : Prop :=
  ∃ ds sp word u,
    d = ds ++ sp ++ u ∧ digit_run ds ∧ Forall is_space sp
    ∧ word ∈ unit_words ∧ Forall2 (λ c x, ci_eq c x) word u.

Definition is_amount `{Unicode} (d : str) : Prop :=
  currency_amount d ∨ unit_amount d.


Definition untyped_label_services : Analyzer :=
  {| translator_detect := λ _, None;
     translator_translate := λ _ _, None;
     the_classifier :=
       λ _ _, Some (PyDict {[ py "labels" := PyList [PyNone];
                              py "scores" := PyList [PyNum (9 # 10)] ]});
     the_sentiment_analyzer := λ _, None |}.

(** ** Strings: [contains] is the substring relation *)

Example py_ascii : py "Az/9" = [65; 122; 47; 57].
Proof. reflexivity. Qed.

Example py_devanagari : py "वकील" = [2357; 2325; 2368; 2354].
Proof. reflexivity. Qed.

Example contains_example : contains (py "urgent") (py "an urgent matter") = true.
Proof. reflexivity. Qed.

Lemma starts_with_spec (a b : str) :
  starts_with a b = true ↔ ∃ post, b = a ++ post.
Proof.
  revert b. induction a as [|x a IH]; intros b; simpl.
  - split; eauto.
  - destruct b as [|y b].
    + split; [done | intros [post Hp]; discriminate].
    + rewrite andb_true_iff, N.eqb_eq, IH. split.
      * intros [-> [post ->]]. eauto.
      * intros [post Hp]. injection Hp as -> ->. eauto.
Qed.

Lemma contains_spec (a b : str) :
  contains a b = true ↔ ∃ pre post, b = pre ++ a ++ post.
Proof.
  induction b as [|y b IH].
  - simpl. rewrite orb_false_r, starts_with_spec. split.
    + intros [post Hp]. exists [], post. done.
    + intros (pre & post & Hp). symmetry in Hp.
      apply app_eq_nil in Hp as [-> Hp]. apply app_eq_nil in Hp as [-> ->].
      exists []. done.
  - cbn [contains]. rewrite orb_true_iff, IH, starts_with_spec. split.
    + intros [[post Hp] | (pre & post & ->)].
      * exists [], post. done.
      * exists (y :: pre), post. done.
    + intros (pre & post & Hp). destruct pre as [|z pre].
      * left. exists post. done.
      * right. injection Hp as -> ->. eauto.
Qed.

Lemma contains_refl (a : str) : contains a a = true.
Proof. apply contains_spec. exists [], []. by rewrite app_nil_r. Qed.

(** ** Urgency *)

Section Urgency.

Context `{Unicode}.

Lemma score_loop (tl : str) (kws : list str) (score : Z) :
  foldl (λ score keyword,
           if contains keyword tl then (score + 1)%Z else score) score kws
  = (score + Z.of_nat (length (filter (λ k, contains k tl) kws)))%Z.
Proof.
  revert score. induction kws as [|k kws IH]; intros score; simpl.
  - lia.
  - rewrite IH, filter_cons. destruct (contains k tl) eqn:Hk.
    + rewrite decide_True by done. simpl. lia.
    + rewrite decide_False by (intros []). done.
Qed.

Lemma assess_urgency_score (text : str) (category : pyval) :
  assess_urgency text category
  = tier_of_score (Z.of_nat (keyword_hits text) + criminal_bonus category).
Proof.
  unfold assess_urgency, tier_of_score, criminal_bonus, keyword_hits.
  rewrite score_loop. destruct (eq_str category (py "criminal")).
  - rewrite Z.add_0_l. done.
  - rewrite Z.add_0_l, Z.add_0_r. done.
Qed.

Lemma keyword_hits_le (text : str) : (keyword_hits text ≤ 7)%nat.
Proof. unfold keyword_hits. etrans; [apply length_filter | done]. Qed.

(** One keyword present, however often, and no bonus: MEDIUM. *)
Lemma assess_urgency_single_keyword (text : str) (category : pyval) :
  keyword_hits text = 1%nat →
  eq_str category (py "criminal") = false →
  assess_urgency text category = MEDIUM.
Proof.
  intros Hhits Hcat. rewrite assess_urgency_score.
  unfold criminal_bonus. rewrite Hhits, Hcat. done.
Qed.

(** C1 (as corrected): the score of [assess_urgency] is the number of
    urgent keywords that occur at least once in the lower-cased text,
    each counted once however often it occurs and so at most 7, plus 2
    when the category is "criminal"; the tier is HIGH from 3, MEDIUM from
    1 and LOW below. *)
Theorem C1_assess_urgency_counts_keywords_once (text : str) (category : pyval) :
  assess_urgency text category
  = tier_of_score (Z.of_nat (keyword_hits text) + criminal_bonus category)
  ∧ (keyword_hits text ≤ 7)%nat
  ∧ (criminal_bonus category = 2%Z ∨ criminal_bonus category = 0%Z)
  ∧ (criminal_bonus category = 2%Z ↔ category = PyStr (py "criminal")).
Proof.
  split_and!.
  - apply assess_urgency_score.
  - apply keyword_hits_le.
  - unfold criminal_bonus. destruct (eq_str _ _); auto.
  - unfold criminal_bonus, eq_str. destruct category; try (split; done).
    case_bool_decide; split; intros; try done; by simplify_eq.
Qed.

(** C8: with category "criminal" the tier is at least the tier of the same
    text with category "civil". *)
Theorem C8_criminal_tier_not_below_civil (text : str) :
  tier_le (assess_urgency text (PyStr (py "civil")))
          (assess_urgency text (PyStr (py "criminal"))).
Proof.
  rewrite !assess_urgency_score.
  change (criminal_bonus (PyStr (py "civil"))) with 0%Z.
  change (criminal_bonus (PyStr (py "criminal"))) with 2%Z.
  unfold tier_le, tier_of_score.
  repeat case_match; simpl; lia.
Qed.

(** C9: with category "criminal" the tier is never LOW: it is MEDIUM or
    HIGH whatever the text. *)
Theorem C9_criminal_never_low (text : str) :
  assess_urgency text (PyStr (py "criminal")) ≠ LOW
  ∧ (assess_urgency text (PyStr (py "criminal")) = MEDIUM
     ∨ assess_urgency text (PyStr (py "criminal")) = HIGH).
Proof.
  rewrite assess_urgency_score.
  change (criminal_bonus (PyStr (py "criminal"))) with 2%Z.
  unfold tier_of_score.
  destruct (3 <=? _)%Z eqn:H3; [split; [done | auto] |].
  destruct (1 <=? _)%Z eqn:H1; [split; [done | auto] |].
  apply Z.leb_gt in H1. lia.
Qed.

End Urgency.

(** C1, as the design document states it, fails: three occurrences of the
    single keyword "urgent" with category "civil" score 3 by occurrences,
    which would be HIGH, while [assess_urgency] returns MEDIUM. *)
Lemma C1_counterexample :
  occurrences (py "urgent") (@str_lower ascii_tables (py "urgent urgent urgent")) = 3%nat
  ∧ tier_of_score
      (@occurrence_score ascii_tables (py "urgent urgent urgent") (PyStr (py "civil")))
    = HIGH
  ∧ @assess_urgency ascii_tables (py "urgent urgent urgent") (PyStr (py "civil"))
    = MEDIUM
  ∧ @assess_urgency ascii_tables (py "urgent urgent urgent") (PyStr (py "civil"))
    ≠ tier_of_score
        (@occurrence_score ascii_tables (py "urgent urgent urgent") (PyStr (py "civil"))).
Proof. vm_compute. split_and!; done. Qed.

(** Two distinct keywords ("threat" in "threatened", "immediate" in
    "immediately") and no bonus: MEDIUM. *)
Example urgency_landlord :
  @assess_urgency ascii_tables
    (py "My landlord threatened to evict me immediately, rent amount ₹15,000")
    (PyStr (py "property"))
  = MEDIUM.
Proof. vm_compute. done. Qed.

Example urgency_is_case_insensitive :
  @assess_urgency ascii_tables (py "URGENT: Violence and Harassment") (PyStr (py "civil"))
  = HIGH.
Proof. vm_compute. done. Qed.

(** ** Advice *)

Section Advice.

Context `{Unicode}.

Lemma advice_templates_civil : advice_templates !! py "civil" = Some civil_template.
Proof. vm_compute. done. Qed.

Lemma advice_templates_keys : advice_templates_items.*1 = known_categories.
Proof. vm_compute. done. Qed.

Lemma template_for_unknown (category : str) :
  category ∉ known_categories → template_for category = civil_template.
Proof.
  intros Hnot. unfold template_for, advice_templates.
  rewrite (not_elem_of_list_to_map_1 advice_templates_items category); [done |].
  by rewrite advice_templates_keys.
Qed.

Lemma generate_legal_advice_str (category text : str) (info : ExtractedInfo) :
  generate_legal_advice (PyStr category) text info
  = Some {| recommended_steps := steps (template_for category) ++ customization info;
            applicable_laws := laws (template_for category);
            urgency_level := assess_urgency text (PyStr category) |}.
Proof.
  unfold generate_legal_advice. rewrite advice_templates_civil. simpl.
  fold (template_for category). unfold customization.
  destruct (amounts info), (dates info); simpl;
    by rewrite <- ?app_assoc, ?app_nil_r.
Qed.

(** C3: the recommended steps are the base steps of the selected template,
    then one step when amounts is non-empty, then one step when dates is
    non-empty; so the base steps are a prefix and the length is the base
    count plus one for each non-empty list. *)
Theorem C3_recommended_steps_extend_base
    (category text : str) (info : ExtractedInfo) :
  ∃ adv,
    generate_legal_advice (PyStr category) text info = Some adv
    ∧ recommended_steps adv
      = steps (template_for category)
          ++ match amounts info with
             | [] => []
             | _ :: _ => [amount_step (amounts info)]
             end
          ++ match dates info with
             | [] => []
             | _ :: _ => [limitation_step]
             end
    ∧ steps (template_for category) `prefix_of` recommended_steps adv
    ∧ length (recommended_steps adv)
      = (length (steps (template_for category))
         + one_if_nonempty (amounts info) + one_if_nonempty (dates info))%nat.
Proof.
  eexists. split; [apply generate_legal_advice_str |]. simpl.
  split_and!.
  - done.
  - by apply prefix_app_r.
  - unfold customization. rewrite !length_app.
    destruct (amounts info), (dates info); simpl; lia.
Qed.

Lemma template_for_known (category : str) (t : template) :
  (category, t) ∈ advice_templates_items → template_for category = t.
Proof.
  intros Hin. repeat (apply elem_of_cons in Hin as [[= -> ->] | Hin]);
    try (by apply elem_of_nil in Hin); by vm_compute.
Qed.

Lemma advice_unknown (category text : str) (info : ExtractedInfo) :
  category ∉ known_categories →
  ∃ adv,
    generate_legal_advice (PyStr category) text info = Some adv
    ∧ recommended_steps adv = steps civil_template ++ customization info
    ∧ applicable_laws adv = laws civil_template.
Proof.
  intros Hnot. eexists. split; [apply generate_legal_advice_str |]. simpl.
  by rewrite (template_for_unknown _ Hnot).
Qed.

Lemma general_unknown : py "general" ∉ known_categories.
Proof. compute_done. Qed.

(** C4: a category string that is none of the six template keys gets the
    steps of the civil template, before customization, and its laws. *)
Theorem C4_unknown_category_uses_civil
    (category text : str) (info : ExtractedInfo) :
  category ∉ known_categories →
  ∃ adv,
    generate_legal_advice (PyStr category) text info = Some adv
    ∧ recommended_steps adv = steps civil_template ++ customization info
    ∧ applicable_laws adv = laws civil_template.
Proof.
  apply advice_unknown.
Qed.

End Advice.

Lemma C4_witness :
  (py "general" ∉ known_categories)
  ∧ ∃ adv,
      @generate_legal_advice ascii_tables (PyStr (py "general")) (py "a debt")
        no_entities = Some adv
      ∧ recommended_steps adv = steps civil_template ++ customization no_entities
      ∧ applicable_laws adv = laws civil_template.
Proof.
  assert (Hnot : py "general" ∉ known_categories) by compute_done.
  split; [exact Hnot |].
  exact (@C4_unknown_category_uses_civil ascii_tables (py "general") (py "a debt")
           no_entities Hnot).
Defined.

(** ** Categorisation and sentiment *)

Section Categorisation.

Context `{Unicode}.

Implicit Types (classifier : str → list str → option pyval)
               (sentiment_analyzer : str → option pyval).

(** The [try] block succeeds exactly when the response has a top label
    and a top score and the label is hashable; the label and the score are
    then returned as they are. *)
Lemma categorize_success classifier text r l s :
  classifier text known_categories = Some r →
  top_label r = Some l → top_score r = Some s → hashable l = true →
  categorize_legal_issue classifier text
  = {| category := l; confidence := s;
       subcategories :=
         match l with PyStr c => default [] (legal_categories !! c) | _ => [] end |}.
Proof.
  unfold categorize_legal_issue, top_label, top_score, known_categories.
  intros -> Hl Hs Hh. simpl.
  destruct (getitem_key r (py "labels")) as [labels|]; [|done]. simpl in *.
  rewrite Hl. simpl.
  destruct (getitem_key r (py "scores")) as [scores|]; [|done]. simpl in *.
  rewrite Hs. simpl. by destruct l.
Qed.

Lemma categorize_failure classifier text :
  classifier text known_categories = None
  ∨ (∃ r, classifier text known_categories = Some r
          ∧ (top_label r = None ∨ top_score r = None
             ∨ ∃ l, top_label r = Some l ∧ hashable l = false)) →
  categorize_legal_issue classifier text = default_category.
Proof.
  unfold categorize_legal_issue, top_label, top_score, known_categories.
  intros [-> | (r & -> & Hr)]; [done |]. simpl.
  destruct (getitem_key r (py "labels")) as [labels|]; [|done]. simpl in *.
  destruct (getitem_0 labels) as [l|]; [|done]. simpl.
  destruct (getitem_key r (py "scores")) as [scores|]; [|done]. simpl in *.
  destruct (getitem_0 scores) as [s|]; [|done]. simpl.
  destruct Hr as [? | [? | (l' & [= <-] & Hh)]]; [done.. |].
  by destruct l.
Qed.

Lemma categorize_cases classifier text :
  categorize_legal_issue classifier text = default_category
  ∨ ∃ r, classifier text known_categories = Some r
         ∧ top_label r = Some (category (categorize_legal_issue classifier text))
         ∧ top_score r = Some (confidence (categorize_legal_issue classifier text)).
Proof.
  destruct (classifier text known_categories) as [r|] eqn:Hc;
    [| left; apply categorize_failure; auto].
  destruct (top_label r) as [l|] eqn:Hl;
    [| left; apply categorize_failure; eauto 6].
  destruct (top_score r) as [s|] eqn:Hs;
    [| left; apply categorize_failure; eauto 6].
  destruct (hashable l) eqn:Hh;
    [| left; apply categorize_failure; eauto 8].
  right. exists r. rewrite (categorize_success _ _ _ _ _ Hc Hl Hs Hh). done.
Qed.

Lemma analyze_sentiment_cases sentiment_analyzer text :
  analyze_sentiment sentiment_analyzer text = default_sentiment
  ∨ ∃ r, sentiment_analyzer text = Some r
         ∧ getitem_0 r = Some (analyze_sentiment sentiment_analyzer text).
Proof.
  unfold analyze_sentiment.
  destruct (sentiment_analyzer text) as [r|]; [| by left]. simpl.
  destruct (getitem_0 r) as [e|] eqn:He; [| by left].
  right. eauto.
Qed.

Lemma default_sentiment_score :
  getitem_key default_sentiment (py "score") = Some (PyNum (1 # 2)).
Proof. vm_compute. done. Qed.

Lemma in_unit_half : in_unit (PyNum (1 # 2)).
Proof. split; discriminate. Qed.

Lemma analyze_sentiment_success sentiment_analyzer text r e :
  sentiment_analyzer text = Some r → getitem_0 r = Some e →
  analyze_sentiment sentiment_analyzer text = e.
Proof. unfold analyze_sentiment. intros -> He. simpl. by rewrite He. Qed.

Lemma analyze_sentiment_failure sentiment_analyzer text :
  sentiment_analyzer text = None
  ∨ (∃ r, sentiment_analyzer text = Some r ∧ getitem_0 r = None) →
  analyze_sentiment sentiment_analyzer text = default_sentiment.
Proof.
  unfold analyze_sentiment. intros [-> | (r & -> & Hr)]; [done |].
  simpl. by rewrite Hr.
Qed.

Lemma legal_categories_unknown (c : str) :
  c ∉ known_categories → legal_categories !! c = None.
Proof. intros Hc. by apply not_elem_of_list_to_map_1. Qed.

(** C2 (as corrected): the confidence is exactly the classifier's top score
    as returned whenever the response is parsed, whatever its value, and 0.5
    when the call or the parsing fails; the sentiment is exactly the
    service's first result as returned, and the default with score 0.5 when
    the call fails or has no first result.  Nothing is clamped; so the
    confidence and the sentiment score are within [0, 1] whenever the scores
    returned by the services are. *)
Theorem C2_scores_pass_through classifier sentiment_analyzer text :
  (∀ r l s, classifier text known_categories = Some r →
            top_label r = Some l → top_score r = Some s → hashable l = true →
            confidence (categorize_legal_issue classifier text) = s)
  ∧ (classifier text known_categories = None
     ∨ (∃ r, classifier text known_categories = Some r
             ∧ (top_label r = None ∨ top_score r = None
                ∨ ∃ l, top_label r = Some l ∧ hashable l = false)) →
     confidence (categorize_legal_issue classifier text) = PyNum (1 # 2))
  ∧ (∀ r e, sentiment_analyzer text = Some r → getitem_0 r = Some e →
            analyze_sentiment sentiment_analyzer text = e)
  ∧ (sentiment_analyzer text = None
     ∨ (∃ r, sentiment_analyzer text = Some r ∧ getitem_0 r = None) →
     analyze_sentiment sentiment_analyzer text = default_sentiment
     ∧ getitem_key (analyze_sentiment sentiment_analyzer text) (py "score")
       = Some (PyNum (1 # 2)))
  ∧ ((∀ r s, classifier text known_categories = Some r →
             top_score r = Some s → in_unit s) →
     in_unit (confidence (categorize_legal_issue classifier text)))
  ∧ ((∀ r e s, sentiment_analyzer text = Some r → getitem_0 r = Some e →
               getitem_key e (py "score") = Some s → in_unit s) →
     ∀ s, getitem_key (analyze_sentiment sentiment_analyzer text) (py "score") = Some s →
          in_unit s).
Proof.
  pose proof (categorize_cases classifier text) as Hcat.
  pose proof (analyze_sentiment_cases sentiment_analyzer text) as Hsen.
  split_and!.
  - intros r l s Hr Hl Hs Hh. by rewrite (categorize_success _ _ _ _ _ Hr Hl Hs Hh).
  - intros Hfail. by rewrite categorize_failure.
  - apply analyze_sentiment_success.
  - intros Hfail. rewrite analyze_sentiment_failure by done.
    split; [done | apply default_sentiment_score].
  - intros Hc. destruct Hcat as [-> | (r & Hr & _ & Hts)]; [apply in_unit_half | eauto].
  - intros Hs s Hscore. destruct Hsen as [Hd | (r & Hr & He)].
    + rewrite Hd, default_sentiment_score in Hscore.
      injection Hscore as <-. apply in_unit_half.
    + eauto.
Qed.

(** C5 (as corrected): the category is exactly the classifier's top label as
    returned whenever the response is parsed, and "general" when the call or
    the parsing fails.  An unrecognised label is kept as the category, with
    empty subcategories; it does not become "general".  So the category is
    one of the seven enumerated values whenever the top label returned by
    the classifier is one of the six candidates. *)
Theorem C5_category_is_top_label classifier text :
  (∀ r l s, classifier text known_categories = Some r →
            top_label r = Some l → top_score r = Some s → hashable l = true →
            category (categorize_legal_issue classifier text) = l)
  ∧ (∀ r c s, classifier text known_categories = Some r →
              top_label r = Some (PyStr c) → top_score r = Some s →
              c ∉ known_categories →
              category (categorize_legal_issue classifier text) = PyStr c
              ∧ subcategories (categorize_legal_issue classifier text) = []
              ∧ (c ≠ py "general" →
                 category (categorize_legal_issue classifier text)
                 ≠ PyStr (py "general")))
  ∧ (classifier text known_categories = None
     ∨ (∃ r, classifier text known_categories = Some r
             ∧ (top_label r = None ∨ top_score r = None
                ∨ ∃ l, top_label r = Some l ∧ hashable l = false)) →
     category (categorize_legal_issue classifier text) = PyStr (py "general")
     ∧ subcategories (categorize_legal_issue classifier text) = [])
  ∧ ((∀ r l, classifier text known_categories = Some r → top_label r = Some l →
             ∃ c, l = PyStr c ∧ c ∈ known_categories) →
     ∃ c, category (categorize_legal_issue classifier text) = PyStr c
          ∧ c ∈ enumerated_categories).
Proof.
  pose proof (categorize_cases classifier text) as Hcat.
  split_and!.
  - intros r l s Hr Hl Hs Hh. by rewrite (categorize_success _ _ _ _ _ Hr Hl Hs Hh).
  - intros r c s Hr Hl Hs Hc.
    rewrite (categorize_success _ _ _ _ _ Hr Hl Hs eq_refl).
    cbn [category subcategories]. split_and!.
    + done.
    + by rewrite legal_categories_unknown.
    + intros Hg [= ->]. done.
  - intros Hfail. by rewrite categorize_failure.
  - intros Hc. destruct Hcat as [-> | (r & Hr & Hl & _)].
    + exists (py "general"). split; [done |].
      unfold enumerated_categories. apply elem_of_app. right. by left.
    + destruct (Hc _ _ Hr Hl) as (c & Hcat & Hin). exists c. split; [done |].
      unfold enumerated_categories. apply elem_of_app. by left.
Qed.

(** C7: when the classifier call raises, or its result cannot be parsed
    (no top label, no top score, or a top label that is no dictionary
    key), the category result is exactly the default, and the advice for
    its category takes the steps and the laws of the civil template. *)
Theorem C7_classifier_failure_defaults classifier text :
  classifier text known_categories = None
  ∨ (∃ r, classifier text known_categories = Some r
          ∧ (top_label r = None ∨ top_score r = None
             ∨ ∃ l, top_label r = Some l ∧ hashable l = false)) →
  categorize_legal_issue classifier text
  = {| category := PyStr (py "general"); confidence := PyNum (1 # 2);
       subcategories := [] |}
  ∧ ∀ text' info, ∃ adv,
      generate_legal_advice (category (categorize_legal_issue classifier text))
        text' info = Some adv
      ∧ recommended_steps adv = steps civil_template ++ customization info
      ∧ applicable_laws adv = laws civil_template.
Proof.
  intros Hfail.
  assert (Hdef : categorize_legal_issue classifier text = default_category).
  { by apply categorize_failure. }
  rewrite Hdef. split; [done |]. intros text' info. simpl.
  apply advice_unknown, general_unknown.
Qed.

End Categorisation.

(** C2, as the design document states it, fails: a classifier score of 1.5
    and a sentiment score of 1.5 are returned as they are. *)
Lemma C2_counterexample :
  confidence (categorize_legal_issue
                (λ _ _, Some (classification (py "civil") (3 # 2))) (py "a debt"))
  = PyNum (3 # 2)
  ∧ ¬ in_unit (PyNum (3 # 2))
  ∧ getitem_key (analyze_sentiment
                   (λ _, Some (sentiment_of (py "NEGATIVE") (3 # 2))) (py "a debt"))
                (py "score")
    = Some (PyNum (3 # 2)).
Proof.
  split_and!.
  - vm_compute. done.
  - intros [_ Hle]. by apply Hle.
  - vm_compute. done.
Qed.

Lemma C2_witness :
  confidence (categorize_legal_issue
                (λ _ _, Some (classification (py "civil") (9 # 10))) (py "a debt"))
  = PyNum (9 # 10)
  ∧ in_unit (confidence (categorize_legal_issue
                           (λ _ _, Some (classification (py "civil") (9 # 10)))
                           (py "a debt")))
  ∧ ∀ s, getitem_key (analyze_sentiment
                        (λ _, Some (sentiment_of (py "NEGATIVE") (8 # 10)))
                        (py "a debt")) (py "score") = Some s →
         in_unit s.
Proof.
  pose proof (C2_scores_pass_through
                (λ _ _, Some (classification (py "civil") (9 # 10)))
                (λ _, Some (sentiment_of (py "NEGATIVE") (8 # 10)))
                (py "a debt")) as (Hpass & _ & _ & _ & Hconf & Hscore).
  split_and!.
  - apply (Hpass (classification (py "civil") (9 # 10)) (PyStr (py "civil"))).
    + reflexivity.
    + vm_compute. reflexivity.
    + vm_compute. reflexivity.
    + reflexivity.
  - apply Hconf. intros r s [= <-] Hs. vm_compute in Hs. injection Hs as <-.
    split; discriminate.
  - apply Hscore. intros r e s [= <-] [= <-] Hs. vm_compute in Hs.
    injection Hs as <-. split; discriminate.
Defined.

(** C5, as the design document states it, fails: a top label "tax", which is
    none of the candidates, is returned as the category, not "general". *)
Lemma C5_counterexample :
  category (categorize_legal_issue
              (λ _ _, Some (classification (py "tax") (9 # 10))) (py "a tax matter"))
  = PyStr (py "tax")
  ∧ py "tax" ∉ enumerated_categories.
Proof. split; [vm_compute; done | compute_done]. Qed.

Lemma C5_witness :
  (category (categorize_legal_issue
               (λ _ _, Some (classification (py "tax") (9 # 10))) (py "a tax matter"))
   = PyStr (py "tax")
   ∧ subcategories (categorize_legal_issue
                      (λ _ _, Some (classification (py "tax") (9 # 10)))
                      (py "a tax matter"))
     = []
   ∧ (py "tax" ≠ py "general" →
      category (categorize_legal_issue
                  (λ _ _, Some (classification (py "tax") (9 # 10)))
                  (py "a tax matter"))
      ≠ PyStr (py "general")))
  ∧ ∃ c, category (categorize_legal_issue
                     (λ _ _, Some (classification (py "civil") (9 # 10))) (py "a debt"))
         = PyStr c
         ∧ c ∈ enumerated_categories.
Proof.
  split.
  - apply (proj1 (proj2 (C5_category_is_top_label
                           (λ _ _, Some (classification (py "tax") (9 # 10)))
                           (py "a tax matter")))
             (classification (py "tax") (9 # 10)) (py "tax") (PyNum (9 # 10))).
    + reflexivity.
    + vm_compute. reflexivity.
    + vm_compute. reflexivity.
    + compute_done.
  - apply (proj2 (proj2 (proj2 (C5_category_is_top_label
                                  (λ _ _, Some (classification (py "civil") (9 # 10)))
                                  (py "a debt"))))).
    intros r l [= <-] Hl. vm_compute in Hl. injection Hl as <-.
    exists (py "civil"). split; [reflexivity | compute_done].
Defined.

Lemma C7_witness :
  categorize_legal_issue (λ _ _, None) (py "a debt")
  = {| category := PyStr (py "general"); confidence := PyNum (1 # 2);
       subcategories := [] |}
  ∧ ∀ text' info, ∃ adv,
      @generate_legal_advice ascii_tables
        (category (categorize_legal_issue (λ _ _, None) (py "a debt")))
        text' info = Some adv
      ∧ recommended_steps adv = steps civil_template ++ customization info
      ∧ applicable_laws adv = laws civil_template.
Proof.
  apply (@C7_classifier_failure_defaults ascii_tables (λ _ _, None) (py "a debt")).
  left. reflexivity.
Defined.

(** ** Keyword extraction *)

Section Keywords.

Context `{Unicode}.

Lemma keyword_loops (tl : str) (groups : list (str * list str)) (acc : list str) :
  foldl (λ acc '(lang, words),
           foldl (λ acc word,
                    if contains (str_lower word) tl then acc ++ [word] else acc)
                 acc words)
        acc groups
  = acc ++ filter (λ w, contains (str_lower w) tl) (concat (groups.*2)).
Proof.
  assert (Hinner : ∀ words acc,
    foldl (λ acc word,
             if contains (str_lower word) tl then acc ++ [word] else acc) acc words
    = acc ++ filter (λ w, contains (str_lower w) tl) words).
  { induction words as [|w words IH]; intros acc'; simpl.
    - by rewrite app_nil_r.
    - rewrite IH, filter_cons. destruct (contains (str_lower w) tl).
      + rewrite decide_True by done. by rewrite <- app_assoc.
      + rewrite decide_False by (intros []). done. }
  revert acc. induction groups as [|[lang words] groups IH]; intros acc; simpl.
  - by rewrite app_nil_r.
  - rewrite IH, Hinner, filter_app, app_assoc. done.
Qed.

Lemma legal_keywords_filter (text : str) :
  legal_keywords (extract_key_info text)
  = filter (λ w, contains (str_lower w) (str_lower text)) all_keywords.
Proof. simpl. unfold match_keywords. by rewrite keyword_loops. Qed.

Lemma all_keywords_list :
  all_keywords
  = [ py "contract"; py "agreement"; py "dispute"; py "court"; py "lawyer";
      py "case"; py "legal"; py "law";
      py "कानूनी"; py "न्यायालय"; py "वकील"; py "मामला"; py "विवाद"; py "समझौता";
      py "कायदेशीर"; py "न्यायालय"; py "वकील"; py "प्रकरण"; py "वाद"; py "करार" ].
Proof. reflexivity. Qed.

Lemma count_absent (w : str) (l : list str) : w ∉ l → count w l = 0%nat.
Proof.
  intros Hnot. unfold count. induction l as [|x l IH]; [done |].
  apply not_elem_of_cons in Hnot as [Hne Hnot].
  rewrite filter_cons, decide_False by done. auto.
Qed.

Lemma count_all_keywords (w : str) :
  w ∉ shared_keywords → (count w all_keywords ≤ 1)%nat.
Proof.
  intros Hnot. destruct (decide (w ∈ all_keywords)) as [Hin | Hout].
  - rewrite all_keywords_list in Hin.
    repeat (apply elem_of_cons in Hin as [-> | Hin]);
      try (by apply elem_of_nil in Hin);
      try (exfalso; apply Hnot; compute_done);
      compute_done.
  - rewrite count_absent by done. lia.
Qed.

Lemma count_filter_le (P : str → Prop) `{!∀ x, Decision (P x)} (w : str) (l : list str) :
  (count w (filter P l) ≤ count w l)%nat.
Proof.
  unfold count. rewrite list_filter_filter.
  induction l as [|x l IH]; [done |].
  rewrite !filter_cons.
  destruct (decide (x = w ∧ P x)) as [[Hx _] | _], (decide (x = w)) as [Hw | Hw];
    simpl; try lia; done.
Qed.

Lemma count_filter_eq (P : str → Prop) `{!∀ x, Decision (P x)} (w : str) (l : list str) :
  P w → count w (filter P l) = count w l.
Proof.
  intros Hw. unfold count. rewrite list_filter_filter.
  induction l as [|x l IH]; [done |].
  rewrite !filter_cons.
  destruct (decide (x = w ∧ P x)) as [[Hx _] | Hn], (decide (x = w)) as [Hx' | Hx'];
    simpl; try lia; try done.
  destruct Hn. by subst.
Qed.

(** C10: every entry of the per-language lists is appended at most once
    whatever the text, so the result is a subsequence of the 20 entries;
    only the two words listed in both the Hindi and the Marathi list can
    appear twice, and they do whenever they match. *)
Theorem C10_keywords_appended_at_most_once (text : str) :
  legal_keywords (extract_key_info text)
  = filter (λ w, contains (str_lower w) (str_lower text)) all_keywords
  ∧ legal_keywords (extract_key_info text) `sublist_of` all_keywords
  ∧ (length (legal_keywords (extract_key_info text)) ≤ 20)%nat
  ∧ length all_keywords = (8 + 6 + 6)%nat
  ∧ (∀ w, (count w (legal_keywords (extract_key_info text))
           ≤ count w all_keywords)%nat)
  ∧ (∀ w, w ∉ shared_keywords →
          (count w (legal_keywords (extract_key_info text)) ≤ 1)%nat)
  ∧ (∀ w, w ∈ shared_keywords →
          contains (str_lower w) (str_lower text) = true →
          count w (legal_keywords (extract_key_info text)) = 2%nat).
Proof.
  rewrite legal_keywords_filter. split_and!.
  - done.
  - apply sublist_filter.
  - etrans; [apply length_filter | done].
  - done.
  - intros w. apply count_filter_le.
  - intros w Hw. etrans; [apply count_filter_le | by apply count_all_keywords].
  - intros w Hw Hc. rewrite count_filter_eq by (by rewrite Hc).
    repeat (apply elem_of_cons in Hw as [-> | Hw]);
      try (by apply elem_of_nil in Hw); compute_done.
Qed.

End Keywords.

Lemma C10_witness :
  count (py "वकील") (legal_keywords (@extract_key_info ascii_tables (py "मेरा वकील")))
  = 2%nat.
Proof.
  refine (proj2 (proj2 (proj2 (proj2 (proj2 (proj2
            (@C10_keywords_appended_at_most_once ascii_tables (py "मेरा वकील")))))))
            (py "वकील") _ _).
  - compute_done.
  - vm_compute. reflexivity.
Defined.

(** ** The regular-expression matcher *)

Section Matching.

Implicit Types (r : regex) (prev q : option char) (s m : str).

Lemma last_or_app prev m1 m2 :
  last_or prev (m1 ++ m2) = last_or (last_or prev m1) m2.
Proof. unfold last_or. rewrite last_app. by destruct (last m2). Qed.

Lemma last_or_cons prev c m : last_or prev (c :: m) = last_or (Some c) m.
Proof. apply (last_or_app prev [c] m). Qed.

Lemma elem_of_seq_run (f g : option char → str → list (str * option char * str))
    prev s x :
  x ∈ ('(m1, p1, s1) ← f prev s; '(m2, p2, s2) ← g p1 s1; [(m1 ++ m2, p2, s2)])
  ↔ ∃ m1 p1 s1 m2 p2 s2,
      (m1, p1, s1) ∈ f prev s ∧ (m2, p2, s2) ∈ g p1 s1 ∧ x = (m1 ++ m2, p2, s2).
Proof.
  rewrite list_elem_of_bind. split.
  - intros ([[m1 p1] s1] & Hx & H1).
    apply list_elem_of_bind in Hx as ([[m2 p2] s2] & Hx & H2).
    apply list_elem_of_singleton in Hx. eauto 10.
  - intros (m1 & p1 & s1 & m2 & p2 & s2 & H1 & H2 & ->).
    exists (m1, p1, s1). split; [| done].
    apply list_elem_of_bind. exists (m2, p2, s2). split; [| done].
    by apply list_elem_of_singleton.
Qed.

Lemma elem_of_run_seq r1 r2 prev s x :
  x ∈ run (Seq r1 r2) prev s
  ↔ ∃ m1 p1 s1 m2 p2 s2,
      (m1, p1, s1) ∈ run r1 prev s ∧ (m2, p2, s2) ∈ run r2 p1 s1
      ∧ x = (m1 ++ m2, p2, s2).
Proof. apply elem_of_seq_run. Qed.

Lemma elem_of_run_class (p : char → bool) prev s x :
  x ∈ run (Class p) prev s ↔ ∃ c s', s = c :: s' ∧ p c ∧ x = ([c], Some c, s').
Proof.
  simpl. destruct s as [|c s'].
  - rewrite elem_of_nil. split; [done | intros (? & ? & ? & _); done].
  - destruct (p c) eqn:Hp.
    + rewrite list_elem_of_singleton. split.
      * intros ->. exists c, s'. by rewrite Hp.
      * intros (c' & s'' & [= <- <-] & _ & ->). done.
    + rewrite elem_of_nil. split; [done |].
      intros (c' & s'' & [= <- <-] & Hc & _). by rewrite Hp in Hc.
Qed.

Lemma elem_of_run_boundary (w : char → bool) prev s x :
  x ∈ run (Boundary w) prev s ↔ at_boundary w prev s = true ∧ x = ([], prev, s).
Proof.
  simpl. destruct (at_boundary w prev s).
  - rewrite list_elem_of_singleton. split; [done | by intros [_ ->]].
  - rewrite elem_of_nil. split; [done | by intros [? _]].
Qed.

Lemma elem_of_stop (lo : nat) prev s (x : str * option char * str) :
  x ∈ match lo with O => [(([] : str), prev, s)] | S _ => [] end
  ↔ lo = 0%nat ∧ x = ([], prev, s).
Proof.
  destruct lo.
  - rewrite list_elem_of_singleton. split; [done | by intros [_ ->]].
  - rewrite elem_of_nil. split; [done | by intros [? _]].
Qed.

Lemma rep_run_consumes f lo hi :
  consumes_prefix f → consumes_prefix (rep_run f lo hi).
Proof.
  intros Hf. revert lo. induction hi as [|hi IH]; intros lo prev s m q s'; simpl.
  - rewrite elem_of_stop. intros [_ [= -> -> ->]]. done.
  - rewrite elem_of_app, elem_of_seq_run, elem_of_stop.
    intros [(m1 & p1 & s1 & m2 & p2 & s2 & H1 & H2 & [= -> -> ->])
           | [_ [= -> -> ->]]]; [| done].
    apply Hf in H1 as [-> ->]. apply IH in H2 as [-> ->].
    by rewrite <- app_assoc, last_or_app.
Qed.

Lemma run_consumes r : consumes_prefix (run r).
Proof.
  induction r as [|p|w|r1 IH1 r2 IH2|r1 IH1 r2 IH2|r IH lo hi];
    intros prev s m q s'.
  - simpl. rewrite list_elem_of_singleton. intros [= -> -> ->]. done.
  - rewrite elem_of_run_class. intros (c & s1 & -> & _ & [= -> -> ->]). done.
  - rewrite elem_of_run_boundary. intros [_ [= -> -> ->]]. done.
  - rewrite elem_of_run_seq.
    intros (m1 & p1 & s1 & m2 & p2 & s2 & H1 & H2 & [= -> -> ->]).
    apply IH1 in H1 as [-> ->]. apply IH2 in H2 as [-> ->].
    by rewrite <- app_assoc, last_or_app.
  - simpl. rewrite elem_of_app. intros [Hx | Hx]; [by apply IH1 | by apply IH2].
  - simpl. by apply rep_run_consumes.
Qed.

(** [\d{lo,hi}] and the like: a run of [lo] to [hi] characters of the
    class. *)
Lemma elem_of_rep_class (p : char → bool) lo hi prev s m q s' :
  (m, q, s') ∈ rep_run (run (Class p)) lo hi prev s
  ↔ s = m ++ s' ∧ Forall p m ∧ (lo ≤ length m ≤ hi)%nat ∧ q = last_or prev m.
Proof.
  revert lo prev s m q. induction hi as [|hi IH]; intros lo prev s m q.
  - simpl. rewrite elem_of_stop. split.
    + intros [-> [= -> -> ->]]. done.
    + intros (-> & _ & Hlen & ->). destruct m; simpl in *; [| lia].
      split; [lia | done].
  - cbn [rep_run]. rewrite elem_of_app, elem_of_seq_run, elem_of_stop. split.
    + intros [(m1 & p1 & s1 & m2 & p2 & s2 & H1 & H2 & [= -> -> ->])
             | [-> [= -> -> ->]]].
      * apply elem_of_run_class in H1 as (c & s1' & -> & Hc & [= -> -> ->]).
        apply IH in H2 as (-> & Hall & Hlen & ->).
        split_and!; [done | by constructor | simpl; lia | simpl; lia |].
        cbn [app]. by rewrite last_or_cons.
      * split_and!; [done | constructor | simpl; lia | simpl; lia | done].
    + intros (-> & Hall & Hlen & ->). destruct m as [|c m2].
      * right. split; [simpl in Hlen; lia | done].
      * left. apply Forall_cons in Hall as [Hc Hall].
        exists [c], (Some c), (m2 ++ s'), m2, (last_or (Some c) m2), s'.
        split_and!.
        -- apply elem_of_run_class. eauto.
        -- apply IH. split_and!; [done | done | simpl in Hlen; lia
                                  | simpl in Hlen; lia | done].
        -- by rewrite last_or_cons.
Qed.

Lemma elem_of_run_rep_class (p : char → bool) lo hi prev s m q s' :
  (m, q, s') ∈ run (Rep (Class p) lo (Some hi)) prev s
  ↔ s = m ++ s' ∧ Forall p m ∧ (lo ≤ length m ≤ hi)%nat ∧ q = last_or prev m.
Proof. apply elem_of_rep_class. Qed.

Lemma elem_of_run_one_of (cs : str) prev s x :
  x ∈ run (one_of cs) prev s ↔ ∃ c s', s = c :: s' ∧ c ∈ cs ∧ x = ([c], Some c, s').
Proof.
  unfold one_of. rewrite elem_of_run_class.
  by setoid_rewrite bool_decide_spec.
Qed.

(** The matches found by [findall] are matches of the pattern: each is the
    first match that [run] lists at its position. *)
Lemma findall_from_sound r skip prev s d :
  d ∈ findall_from r skip prev s →
  ∃ pre post q,
    s = pre ++ d ++ post
    ∧ head (run r (last_or prev pre) (d ++ post)) = Some (d, q, post).
Proof.
  revert skip prev. induction s as [|c s IH]; intros skip prev; simpl.
  - by intros ?%elem_of_nil.
  - assert (Hlater : ∀ k, d ∈ findall_from r k (Some c) s →
      ∃ pre post q, c :: s = pre ++ d ++ post
        ∧ head (run r (last_or prev pre) (d ++ post)) = Some (d, q, post)).
    { intros k (pre & post & q & -> & Hhead)%IH.
      exists (c :: pre), post, q. by rewrite last_or_cons. }
    destruct skip as [|k]; [| by apply Hlater].
    destruct (run r prev (c :: s)) as [|[[m q] rest] ms] eqn:Hrun;
      [by apply Hlater |].
    intros [-> | Hin]%elem_of_cons; [| by eapply Hlater].
    assert (Hm : (m, q, rest) ∈ run r prev (c :: s)) by (rewrite Hrun; by left).
    apply run_consumes in Hm as [Hs _].
    exists [], rest, q. rewrite <- Hs. split; [done |].
    unfold last_or. simpl. by rewrite Hrun.
Qed.

End Matching.

(** ** Dates *)

Section Dates.

Context `{Unicode}.

Implicit Types (prev q : option char) (s m d pre post : str).

Lemma last_date g1 c1 g2 c2 g3 :
  last (g1 ++ c1 :: g2 ++ c2 :: g3) = last_or (Some c2) g3.
Proof.
  rewrite last_app_cons, app_comm_cons, last_app_cons, last_cons.
  unfold last_or. done.
Qed.

(** The matches of [date_pattern] at a position. *)
Lemma elem_of_run_date prev s m q s' :
  (m, q, s') ∈ run date_pattern prev s
  ↔ ∃ g1 c1 g2 c2 g3,
      m = g1 ++ c1 :: g2 ++ c2 :: g3
      ∧ s = m ++ s'
      ∧ date_shape g1 c1 g2 c2 g3
      ∧ at_boundary is_word prev s = true
      ∧ at_boundary is_word (last m) s' = true
      ∧ q = last m.
Proof.
  unfold date_pattern, date_shape. split.
  - intros Hx.
    apply elem_of_run_seq in Hx as (? & ? & ? & ? & ? & ? & Hb & Hx & [= -> -> ->]).
    apply elem_of_run_boundary in Hb as [Hb [= -> -> ->]].
    apply elem_of_run_seq in Hx as (g1 & ? & ? & ? & ? & ? & Hg1 & Hx & [= -> -> ->]).
    apply elem_of_run_rep_class in Hg1 as (Hs1 & Hd1 & Hl1 & ->).
    apply elem_of_run_seq in Hx as (? & ? & ? & ? & ? & ? & Hc1 & Hx & [= -> -> ->]).
    apply elem_of_run_one_of in Hc1 as (c1 & ? & Hs2 & Hc1 & [= -> -> ->]).
    apply elem_of_run_seq in Hx as (g2 & ? & ? & ? & ? & ? & Hg2 & Hx & [= -> -> ->]).
    apply elem_of_run_rep_class in Hg2 as (Hs3 & Hd2 & Hl2 & ->).
    apply elem_of_run_seq in Hx as (? & ? & ? & ? & ? & ? & Hc2 & Hx & [= -> -> ->]).
    apply elem_of_run_one_of in Hc2 as (c2 & ? & Hs4 & Hc2 & [= -> -> ->]).
    apply elem_of_run_seq in Hx as (g3 & ? & ? & ? & ? & ? & Hg3 & Hx & [= -> -> ->]).
    apply elem_of_run_rep_class in Hg3 as (Hs5 & Hd3 & Hl3 & ->).
    apply elem_of_run_boundary in Hx as [He [= -> -> ->]].
    subst. exists g1, c1, g2, c2, g3.
    rewrite app_nil_r. cbn [app].
    rewrite last_date.
    split_and!; try done; try lia.
    by rewrite <- !app_assoc, <- !app_comm_cons, <- !app_assoc.
  - intros (g1 & c1 & g2 & c2 & g3 & -> & -> & Hshape & Hb & He & ->).
    destruct Hshape as (Hd1 & Hl1 & Hc1 & Hd2 & Hl2 & Hc2 & Hd3 & Hl3).
    rewrite last_date in *.
    rewrite <- !app_assoc, <- !app_comm_cons, <- !app_assoc, <- !app_comm_cons in Hb.
    rewrite <- !app_assoc, <- !app_comm_cons, <- !app_assoc, <- !app_comm_cons.
    apply elem_of_run_seq.
    exists [], prev, (g1 ++ c1 :: g2 ++ c2 :: g3 ++ s'),
      (g1 ++ c1 :: g2 ++ c2 :: g3), (last_or (Some c2) g3), s'.
    split_and!; [by apply elem_of_run_boundary | | done].
    apply elem_of_run_seq.
    exists g1, (last_or prev g1), (c1 :: g2 ++ c2 :: g3 ++ s'),
      (c1 :: g2 ++ c2 :: g3), (last_or (Some c2) g3), s'.
    split_and!; [by apply elem_of_run_rep_class | | done].
    apply elem_of_run_seq.
    exists [c1], (Some c1), (g2 ++ c2 :: g3 ++ s'),
      (g2 ++ c2 :: g3), (last_or (Some c2) g3), s'.
    split_and!; [apply elem_of_run_one_of; eauto | | done].
    apply elem_of_run_seq.
    exists g2, (last_or (Some c1) g2), (c2 :: g3 ++ s'),
      (c2 :: g3), (last_or (Some c2) g3), s'.
    split_and!; [by apply elem_of_run_rep_class | | done].
    apply elem_of_run_seq.
    exists [c2], (Some c2), (g3 ++ s'), g3, (last_or (Some c2) g3), s'.
    split_and!; [apply elem_of_run_one_of; eauto | | done].
    apply elem_of_run_seq.
    exists g3, (last_or (Some c2) g3), s', [], (last_or (Some c2) g3), s'.
    split_and!; [by apply elem_of_run_rep_class | by apply elem_of_run_boundary
                | by rewrite app_nil_r].
Qed.

Lemma last_or_None m : last_or None m = last m.
Proof. unfold last_or. by destruct (last m). Qed.

Lemma dates_sound text d :
  d ∈ dates (extract_key_info text) →
  is_date d ∧ ∃ pre post, text = pre ++ d ++ post ∧ word_bounded pre d post.
Proof.
  simpl. unfold findall.
  intros (pre & post & q & -> & Hhead)%findall_from_sound.
  apply head_Some_elem_of, elem_of_run_date in Hhead
    as (g1 & c1 & g2 & c2 & g3 & Hd & _ & Hshape & Hb & He & _).
  rewrite last_or_None in Hb. split.
  - exists g1, c1, g2, c2, g3. done.
  - exists pre, post. done.
Qed.

(** A maximal run of digits is determined by the text. *)
Lemma digit_run_unique (g g' r r' : str) :
  g ++ r = g' ++ r' →
  Forall is_digit g → Forall is_digit g' →
  (∀ c, head r = Some c → ¬ is_digit c) →
  (∀ c, head r' = Some c → ¬ is_digit c) →
  g = g' ∧ r = r'.
Proof.
  revert g'. induction g as [|x g IH]; intros [|x' g'] Heq Hg Hg' Hr Hr';
    simpl in *.
  - done.
  - subst r. apply Forall_cons in Hg' as [Hx _]. by destruct (Hr x').
  - subst r'. apply Forall_cons in Hg as [Hx _]. by destruct (Hr' x).
  - injection Heq as -> Heq.
    apply Forall_cons in Hg as [_ Hg]. apply Forall_cons in Hg' as [_ Hg'].
    destruct (IH g' Heq Hg Hg' Hr Hr') as [-> ->]. done.
Qed.

(** Two facts of the Unicode database: a decimal digit is a word character,
    and the two separators are no digits. *)
Section Tables.

Hypothesis digit_word : ∀ c, is_digit c → is_word c.
Hypothesis separator_no_digit : ∀ c, c ∈ py "-/" → ¬ is_digit c.

(** After a digit, a word boundary excludes a further digit. *)
Lemma boundary_ends_digits c2 g3 post :
  Forall is_digit g3 → (2 ≤ length g3)%nat →
  at_boundary is_word (last_or (Some c2) g3) post = true →
  ∀ c, head post = Some c → ¬ is_digit c.
Proof.
  intros Hd Hl Hb c Hc Hdc. unfold at_boundary, last_or in Hb.
  rewrite Hc in Hb. simpl in Hb.
  destruct (last g3) as [y|] eqn:Hlast.
  - assert (Hy : is_digit y).
    { rewrite Forall_forall in Hd. by apply Hd, last_Some_elem_of. }
    apply digit_word in Hy, Hdc. simpl in Hb.
    destruct (is_word y), (is_word c); done.
  - apply last_None in Hlast. subst g3. simpl in Hl. lia.
Qed.

(** No match of [date_pattern] starts at a character that is no digit. *)
Lemma no_date_at_non_digit prev c s :
  ¬ is_digit c → run date_pattern prev (c :: s) = [].
Proof.
  intros Hc. apply elem_of_nil_inv. intros [[m q] s'] Hx.
  apply elem_of_run_date in Hx
    as (g1 & c1 & g2 & c2 & g3 & -> & Hs & (Hd1 & Hl1 & _) & _).
  destruct g1 as [|x g1]; [simpl in Hl1; lia |].
  injection Hs as ->. apply Forall_cons in Hd1 as [Hx _]. done.
Qed.

Lemma findall_skips_non_digits prev pre s :
  Forall (λ c, ¬ is_digit c) pre →
  findall_from date_pattern 0 prev (pre ++ s)
  = findall_from date_pattern 0 (last_or prev pre) s.
Proof.
  revert prev. induction pre as [|c pre IH]; intros prev Hpre; [done |].
  apply Forall_cons in Hpre as [Hc Hpre]. cbn [app findall_from].
  rewrite no_date_at_non_digit by done.
  rewrite IH by done. by rewrite last_or_cons.
Qed.

(** At the start of a word-bounded date, the only match is that date. *)
Lemma date_match_unique prev d post x :
  is_date d → at_boundary is_word (last d) post = true →
  x ∈ run date_pattern prev (d ++ post) → x = (d, last d, post).
Proof.
  intros (g1 & c1 & g2 & c2 & g3 & -> & Hshape) He.
  destruct Hshape as (Hd1 & Hl1 & Hc1 & Hd2 & Hl2 & Hc2 & Hd3 & Hl3).
  destruct x as [[m q] s'].
  intros (g1' & c1' & g2' & c2' & g3' & -> & Hs & Hshape' & _ & He' & ->)
    %elem_of_run_date.
  destruct Hshape' as (Hd1' & Hl1' & Hc1' & Hd2' & Hl2' & Hc2' & Hd3' & Hl3').
  rewrite last_date in *.
  rewrite <- !app_assoc, <- !app_comm_cons, <- !app_assoc, <- !app_comm_cons in Hs.
  apply digit_run_unique in Hs as [<- [= <- Hs]]; [| done | done | ..];
    [| intros c [= <-]; by apply separator_no_digit
     | intros c [= <-]; by apply separator_no_digit].
  apply digit_run_unique in Hs as [<- [= <- Hs]]; [| done | done | ..];
    [| intros c [= <-]; by apply separator_no_digit
     | intros c [= <-]; by apply separator_no_digit].
  apply digit_run_unique in Hs as [<- <-]; [| done | done | ..].
  - by rewrite last_date.
  - apply (boundary_ends_digits c2 g3); [done | lia | done].
  - apply (boundary_ends_digits c2 g3'); [done | lia | done].
Qed.

Lemma dates_complete pre d post :
  Forall (λ c, ¬ is_digit c) pre → is_date d → word_bounded pre d post →
  ∃ later, dates (extract_key_info (pre ++ d ++ post)) = d :: later.
Proof.
  intros Hpre Hd [Hb He]. simpl. unfold findall.
  rewrite findall_skips_non_digits, last_or_None by done.
  assert (Hin : (d, last d, post) ∈ run date_pattern (last pre) (d ++ post)).
  { destruct Hd as (g1 & c1 & g2 & c2 & g3 & -> & Hshape).
    apply elem_of_run_date. exists g1, c1, g2, c2, g3. done. }
  destruct (run date_pattern (last pre) (d ++ post)) as [|x xs] eqn:Hrun;
    [by apply elem_of_nil in Hin |].
  assert (Hx : x = (d, last d, post)).
  { apply (date_match_unique (last pre)); [done | done |].
    rewrite Hrun. by left. }
  subst x. destruct (d ++ post) as [|c s] eqn:Hs.
  - destruct Hd as (g1 & c1 & g2 & c2 & g3 & -> & _).
    by destruct g1.
  - cbn [findall_from]. rewrite Hrun. eauto.
Qed.

(** After a match, the search resumes at its end. *)
Lemma findall_from_resume (r : regex) prev (a s : str) :
  findall_from r (length a) prev (a ++ s) = findall_from r 0 (last_or prev a) s.
Proof.
  revert prev. induction a as [|c a IH]; intros prev; [done |].
  cbn [length app findall_from]. by rewrite IH, last_or_cons.
Qed.

Lemma is_date_nonempty d : is_date d → ∃ c d', d = c :: d'.
Proof.
  intros (g1 & c1 & g2 & c2 & g3 & -> & _ & Hl1 & _).
  destruct g1 as [|c g1]; [simpl in Hl1; lia | eauto].
Qed.

Lemma last_or_date prev d : is_date d → last_or prev d = last d.
Proof.
  intros (c & d' & ->)%is_date_nonempty. unfold last_or.
  destruct (last (c :: d')) eqn:Hl; [done |]. by apply last_None in Hl.
Qed.

(** The matches of [date_pattern] at a position are the date tokens there. *)
Lemma run_date_token prev s m q s' :
  (m, q, s') ∈ run date_pattern prev s ↔ date_token prev s m s' ∧ q = last m.
Proof.
  rewrite elem_of_run_date. unfold date_token, is_date. split.
  - intros (g1 & c1 & g2 & c2 & g3 & -> & -> & Hshape & Hb & He & ->).
    split_and!; try done. by exists g1, c1, g2, c2, g3.
  - intros [(-> & (g1 & c1 & g2 & c2 & g3 & -> & Hshape) & Hb & He) ->].
    by exists g1, c1, g2, c2, g3.
Qed.

Lemma findall_date_report prev c s m q rest ms :
  run date_pattern prev (c :: s) = (m, q, rest) :: ms →
  date_token prev (c :: s) m rest
  ∧ findall_from date_pattern 0 prev (c :: s)
    = m :: findall_from date_pattern 0 (last m) rest.
Proof.
  intros Hrun.
  assert (Hin : (m, q, rest) ∈ run date_pattern prev (c :: s))
    by (rewrite Hrun; by left).
  apply run_date_token in Hin as [Htok _]. split; [done |].
  cbn [findall_from]. rewrite Hrun. f_equal.
  destruct Htok as (Hs & Hdate & _).
  destruct (is_date_nonempty m Hdate) as (c' & m' & ->).
  injection Hs as <- ->. cbn [length pred].
  by rewrite findall_from_resume, <- (last_or_cons None), last_or_None.
Qed.

Lemma findall_date_pass prev c s :
  run date_pattern prev (c :: s) = [] →
  (∀ d post, ¬ date_token prev (c :: s) d post)
  ∧ findall_from date_pattern 0 prev (c :: s)
    = findall_from date_pattern 0 (Some c) s.
Proof.
  intros Hrun. split.
  - intros d post Htok.
    assert (Hin : (d, last d, post) ∈ run date_pattern prev (c :: s))
      by (by apply run_date_token).
    rewrite Hrun in Hin. by apply elem_of_nil in Hin.
  - cbn [findall_from]. by rewrite Hrun.
Qed.

(** The dates found are the result of the scan. *)
Lemma findall_date_scan (n : nat) prev s :
  (length s ≤ n)%nat → date_scan prev s (findall_from date_pattern 0 prev s).
Proof.
  revert prev s. induction n as [|n IH]; intros prev s Hn.
  - destruct s; [constructor | simpl in Hn; lia].
  - destruct s as [|c s]; [constructor |].
    destruct (run date_pattern prev (c :: s)) as [|[[m q] rest] ms] eqn:Hrun.
    + destruct (findall_date_pass prev c s Hrun) as [Hnone ->].
      apply scan_pass; [done |]. apply IH. simpl in Hn. lia.
    + destruct (findall_date_report prev c s m q rest ms Hrun) as [Htok ->].
      eapply scan_report; [exact Htok |]. apply IH.
      destruct Htok as (Hs & Hdate & _).
      destruct (is_date_nonempty m Hdate) as (c' & m' & ->).
      apply (f_equal length) in Hs. rewrite length_app in Hs. simpl in Hs, Hn. lia.
Qed.

(** The scan has one result. *)
Lemma date_scan_unique prev s ds :
  date_scan prev s ds → ds = findall_from date_pattern 0 prev s.
Proof.
  induction 1 as [prev | prev c s ds Hnone _ IH | prev s d post ds Htok _ IH].
  - done.
  - destruct (run date_pattern prev (c :: s)) as [|[[m q] rest] ms] eqn:Hrun.
    + destruct (findall_date_pass prev c s Hrun) as [_ ->]. done.
    + destruct (findall_date_report prev c s m q rest ms Hrun) as [Htok _].
      by destruct (Hnone m rest).
  - assert (Hin : (d, last d, post) ∈ run date_pattern prev s)
      by (by apply run_date_token).
    destruct Htok as (-> & Hdate & Hb & He).
    destruct (is_date_nonempty d Hdate) as (c' & d' & Hd).
    destruct (run date_pattern prev (d ++ post)) as [|[[m q] rest] ms] eqn:Hrun;
      [by apply elem_of_nil in Hin |].
    assert (Hx : (m, q, rest) = (d, last d, post)).
    { apply (date_match_unique prev); [done | done |].
      rewrite Hrun. by left. }
    injection Hx as -> -> ->.
    revert Hrun. rewrite Hd. cbn [app]. intros Hrun.
    destruct (findall_date_report prev c' (d' ++ post) (c' :: d') (last (c' :: d'))
                post ms Hrun) as [_ ->].
    by rewrite IH, Hd.
Qed.

(** Every date token of the text is reported, unless it starts inside a
    match that starts before it. *)
Lemma date_scan_complete prev s ds :
  date_scan prev s ds →
  ∀ pre d post,
    s = pre ++ d ++ post →
    date_token (last_or prev pre) (d ++ post) d post →
    d ∈ ds
    ∨ ∃ pre' d' post',
        s = pre' ++ d' ++ post' ∧ d' ∈ ds
        ∧ date_token (last_or prev pre') (d' ++ post') d' post'
        ∧ (length pre' < length pre < length pre' + length d')%nat.
Proof.
  induction 1 as [prev | prev c s ds Hnone _ IH | prev s d0 post0 ds Htok0 _ IH];
    intros pre d post Hs Htok.
  - destruct Htok as (_ & (c & d' & ->)%is_date_nonempty & _).
    by destruct pre.
  - destruct pre as [|c0 pre].
    + simpl in Hs. rewrite <- Hs in Htok. by destruct (Hnone d post).
    + injection Hs as <- ->. rewrite last_or_cons in Htok.
      destruct (IH pre d post eq_refl Htok)
        as [Hin | (pre' & d' & post' & Hs' & Hin & Htok' & Hlen)]; [by left |].
      right. exists (c :: pre'), d', post'.
      rewrite last_or_cons, Hs'. split_and!; try done; simpl; lia.
  - pose proof Htok0 as (Hs0 & Hdate0 & Hb0 & He0).
    assert (Hlater : ∀ k, pre = d0 ++ k → post0 = k ++ d ++ post →
              d ∈ d0 :: ds
              ∨ ∃ pre' d' post',
                  s = pre' ++ d' ++ post' ∧ d' ∈ d0 :: ds
                  ∧ date_token (last_or prev pre') (d' ++ post') d' post'
                  ∧ (length pre' < length pre < length pre' + length d')%nat).
    { intros k Hpre Hk.
      rewrite Hpre, last_or_app, (last_or_date prev d0 Hdate0) in Htok.
      destruct (IH k d post Hk Htok)
        as [Hin | (pre' & d' & post' & Hs' & Hin & Htok' & Hlen)];
        [left; by right |].
      right. exists (d0 ++ pre'), d', post'.
      rewrite last_or_app, (last_or_date prev d0 Hdate0), Hs0, Hs', <- app_assoc, Hpre.
      split_and!; [done | by right | done | |]; rewrite !length_app; lia. }
    rewrite Hs0 in Hs. apply app_eq_inv in Hs as [(k & Hd0 & Hk) | (k & Hpre & Hk)].
    + destruct pre as [|c0 pre].
      * left. simpl in Htok, Hd0. subst k.
        assert (Hx : (d, last d, post) = (d0, last d0, post0)).
        { apply (date_match_unique prev); [done | done |].
          rewrite <- Hk. by apply run_date_token. }
        injection Hx as -> _ _. by left.
      * destruct k as [|c1 k].
        -- apply (Hlater []); [by rewrite Hd0, !app_nil_r | by symmetry].
        -- right. exists [], d0, post0.
           split_and!; [by rewrite Hs0 | by left | by rewrite <- Hs0 | simpl; lia |].
           rewrite Hd0, length_app. simpl. lia.
    + by apply (Hlater k).
Qed.

End Tables.

Lemma date_token_bounded pre d post :
  date_token (last pre) (d ++ post) d post ↔ is_date d ∧ word_bounded pre d post.
Proof.
  unfold date_token, word_bounded. split.
  - intros (_ & Hd & Hb & He). done.
  - intros (Hd & Hb & He). done.
Qed.

(** C6 (as corrected): the dates are exactly the tokens that the
    left-to-right scan of the text reports, a token being a word-bounded
    substring of the form one or two digits, '-' or '/', one or two digits,
    '-' or '/', two to four digits: the scan passes a position where no
    token starts, reports a token and resumes after it.  So every extracted
    date is such a token; every such token of the text is extracted unless
    it starts inside a match that starts before it; and a token that no
    digit precedes is the first date.  The final group may have three
    digits. *)
Theorem C6_dates_have_two_to_four_final_digits (text : str) :
  (∀ c, is_digit c → is_word c) →
  (∀ c, c ∈ py "-/" → ¬ is_digit c) →
  (∀ d, d ∈ dates (extract_key_info text) →
        is_date d ∧ ∃ pre post, text = pre ++ d ++ post ∧ word_bounded pre d post)
  ∧ (∀ pre d post,
       text = pre ++ d ++ post →
       Forall (λ c, ¬ is_digit c) pre → is_date d → word_bounded pre d post →
       ∃ later, dates (extract_key_info text) = d :: later)
  ∧ date_scan None text (dates (extract_key_info text))
  ∧ (∀ ds, date_scan None text ds → ds = dates (extract_key_info text))
  ∧ (∀ pre d post,
       text = pre ++ d ++ post → is_date d → word_bounded pre d post →
       d ∈ dates (extract_key_info text)
       ∨ ∃ pre' d' post',
           text = pre' ++ d' ++ post'
           ∧ d' ∈ dates (extract_key_info text)
           ∧ is_date d' ∧ word_bounded pre' d' post'
           ∧ (length pre' < length pre < length pre' + length d')%nat).
Proof.
  intros Hword Hsep.
  assert (Hscan : date_scan None text (dates (extract_key_info text))).
  { apply (findall_date_scan (length text)). done. }
  split_and!.
  - apply dates_sound.
  - intros pre d post -> Hpre Hd Hb. by apply dates_complete.
  - exact Hscan.
  - intros ds Hds. by apply date_scan_unique.
  - intros pre d post Htext Hd Hb.
    destruct (date_scan_complete Hword Hsep None text _ Hscan pre d post Htext)
      as [Hin | (pre' & d' & post' & Htext' & Hin & Htok' & Hlen)].
    + rewrite last_or_None. by apply date_token_bounded.
    + by left.
    + right. exists pre', d', post'.
      rewrite last_or_None in Htok'. apply date_token_bounded in Htok' as [Hd' Hb'].
      done.
Qed.

End Dates.

(** C6, as the design document states it, fails: "12/05/202", whose final
    group has three digits, is extracted as a date.  And a token that starts
    inside an earlier match is not extracted: of "1/2/34/5/67" only "1/2/34"
    is, although "34/5/67" is a word-bounded token of the form. *)
Lemma C6_counterexample :
  dates (@extract_key_info ascii_tables (py "12/05/202")) = [py "12/05/202"]
  ∧ py "12/05/202" = py "12" ++ py "/" ++ py "05" ++ py "/" ++ py "202"
  ∧ length (py "202") = 3%nat
  ∧ dates (@extract_key_info ascii_tables (py "1/2/34/5/67")) = [py "1/2/34"]
  ∧ py "1/2/34/5/67" = py "1/2/" ++ py "34/5/67" ++ []
  ∧ @is_date ascii_tables (py "34/5/67")
  ∧ @word_bounded ascii_tables (py "1/2/") (py "34/5/67") [].
Proof.
  split_and!; try (by vm_compute).
  exists (py "34"), 47, (py "5"), 47, (py "67").
  split; [by vm_compute |]. unfold date_shape. split_and!; compute_done.
Qed.

(** Both dates of a text are extracted. *)
Example extract_two_dates :
  dates (@extract_key_info ascii_tables (py "12/05/2023 and 13/06/2024"))
  = [py "12/05/2023"; py "13/06/2024"].
Proof. by vm_compute. Qed.

(** A date and no urgent keyword, category civil: LOW, with the limitation
    step and without the amounts step. *)
Example advice_with_date :
  @generate_legal_advice ascii_tables (PyStr (py "civil"))
    (py "The agreement was signed on 12/05/2023")
    (@extract_key_info ascii_tables (py "The agreement was signed on 12/05/2023"))
  = Some {| recommended_steps := steps civil_template ++ [limitation_step];
            applicable_laws := laws civil_template;
            urgency_level := LOW |}.
Proof. vm_compute. done. Qed.

Example extract_landlord :
  @extract_key_info ascii_tables
    (py "My landlord threatened to evict me immediately, rent amount ₹15,000")
  = {| parties_involved := []; legal_keywords := []; dates := [];
       amounts := [py "₹15,000"]; locations := [] |}.
Proof. vm_compute. done. Qed.

Example extract_dates_examples :
  dates (@extract_key_info ascii_tables
           (py "due 1-2-99, not 1/2/3 nor 123/4/56 nor a1/2/34 nor 1/2/34567; 01/02/2003"))
  = [py "1-2-99"; py "01/02/2003"].
Proof. vm_compute. done. Qed.

Lemma ascii_digit_word (c : char) : ascii_digit c → ascii_word c.
Proof. unfold ascii_word. by destruct (ascii_digit c). Qed.

Lemma ascii_separator_no_digit (c : char) : c ∈ py "-/" → ¬ ascii_digit c.
Proof.
  change (py "-/") with [45; 47].
  intros Hc. repeat (apply elem_of_cons in Hc as [-> | Hc]);
    [intros [] | intros [] | by apply elem_of_nil in Hc].
Qed.

Lemma C6_witness :
  (∃ later,
     dates (@extract_key_info ascii_tables (py "12/05/2023 and 13/06/2024"))
     = py "12/05/2023" :: later)
  ∧ (py "13/06/2024"
       ∈ dates (@extract_key_info ascii_tables (py "12/05/2023 and 13/06/2024"))
     ∨ ∃ pre' d' post',
         py "12/05/2023 and 13/06/2024" = pre' ++ d' ++ post'
         ∧ d' ∈ dates (@extract_key_info ascii_tables (py "12/05/2023 and 13/06/2024"))
         ∧ @is_date ascii_tables d' ∧ @word_bounded ascii_tables pre' d' post'
         ∧ (length pre' < length (py "12/05/2023 and ") < length pre' + length d')%nat).
Proof.
  pose proof (@C6_dates_have_two_to_four_final_digits ascii_tables
                (py "12/05/2023 and 13/06/2024")
                ascii_digit_word ascii_separator_no_digit)
    as (_ & Hfirst & _ & _ & Hevery).
  split.
  - apply (Hfirst [] (py "12/05/2023") (py " and 13/06/2024")).
    + by vm_compute.
    + constructor.
    + exists (py "12"), 47, (py "05"), 47, (py "2023").
      split; [by vm_compute |]. unfold date_shape. split_and!; compute_done.
    + split; by vm_compute.
  - apply (Hevery (py "12/05/2023 and ") (py "13/06/2024") []).
    + by vm_compute.
    + exists (py "13"), 47, (py "06"), 47, (py "2024").
      split; [by vm_compute |]. unfold date_shape. split_and!; compute_done.
    + split; by vm_compute.
Defined.


(** ** Translation *)

Section Translation.

Implicit Types (self : Analyzer) (text target : str).

(** X1: [translate_text] returns either the text it was given or exactly
    what the translator returned, and the latter only when the detected
    language differs from the target; when the translator raises, the text
    comes back unchanged. *)
Theorem X1_translate_text_original_or_translation self text target :
  (translate_text self text target = PyStr text
   ∨ (eq_str (detect_language self text) target = false
      ∧ translator_translate self text target
        = Some (translate_text self text target)))
  ∧ (translator_translate self text target = None →
     translate_text self text target = PyStr text).
Proof.
  unfold translate_text.
  destruct (eq_str (detect_language self text) target) eqn:Hd.
  - split; [by left | done].
  - destruct (translator_translate self text target) as [v|] eqn:Ht.
    + split; [by right | done].
    + split; [by left | done].
Qed.

(** X2: when language detection raises, or detects English,
    [translate_text(text, 'en')] returns the text untranslated, whatever the
    translator would answer: the fallback language of [detect_language] is
    the target. *)
Theorem X2_detection_failure_skips_translation self text :
  translator_detect self text = None
  ∨ translator_detect self text = Some (PyStr (py "en")) →
  detect_language self text = PyStr (py "en")
  ∧ translate_text self text (py "en") = PyStr text.
Proof.
  intros Hd.
  assert (Hlang : detect_language self text = PyStr (py "en")).
  { unfold detect_language. by destruct Hd as [-> | ->]. }
  split; [done |]. unfold translate_text. rewrite Hlang. done.
Qed.

End Translation.

Lemma X1_witness :
  translate_text failing_services (py "मेरा वकील") (py "en") = PyStr (py "मेरा वकील").
Proof.
  apply (proj2 (X1_translate_text_original_or_translation
                  failing_services (py "मेरा वकील") (py "en"))).
  reflexivity.
Defined.

Lemma X2_witness :
  translate_text
    {| translator_detect := λ _, None;
       translator_translate := λ _ _, Some (PyStr (py "my lawyer"));
       the_classifier := λ _ _, None;
       the_sentiment_analyzer := λ _, None |}
    (py "मेरा वकील") (py "en")
  = PyStr (py "मेरा वकील").
Proof.
  refine (proj2 (X2_detection_failure_skips_translation
                   {| translator_detect := λ _, None;
                      translator_translate := λ _ _, Some (PyStr (py "my lawyer"));
                      the_classifier := λ _ _, None;
                      the_sentiment_analyzer := λ _, None |}
                   (py "मेरा वकील") _)).
  left. reflexivity.
Defined.

(** ** More on categories and advice *)

Section CategoryAdvice.

Context `{Unicode}.

Implicit Types (classifier : str → list str → option pyval).

Lemma categorize_hashable classifier text :
  hashable (category (categorize_legal_issue classifier text)) = true.
Proof.
  destruct (classifier text known_categories) as [r|] eqn:Hc;
    [| by rewrite categorize_failure by auto].
  destruct (top_label r) as [l|] eqn:Hl;
    [| by rewrite categorize_failure by eauto 6].
  destruct (top_score r) as [s|] eqn:Hs;
    [| by rewrite categorize_failure by eauto 6].
  destruct (hashable l) eqn:Hh;
    [| by rewrite categorize_failure by eauto 8].
  by rewrite (categorize_success _ _ _ _ _ Hc Hl Hs Hh).
Qed.

Lemma generate_legal_advice_other (category : pyval) (text : str) (info : ExtractedInfo) :
  hashable category = true → (∀ c, category ≠ PyStr c) →
  generate_legal_advice category text info
  = Some {| recommended_steps := steps civil_template ++ customization info;
            applicable_laws := laws civil_template;
            urgency_level := assess_urgency text category |}.
Proof.
  intros Hh Hstr. unfold generate_legal_advice. rewrite advice_templates_civil.
  destruct category as [|q|c|l|d]; try done; [| | by destruct (Hstr c)];
    simpl; unfold customization;
    destruct (amounts info), (dates info); simpl;
      by rewrite <- ?app_assoc, ?app_nil_r.
Qed.

Lemma generate_legal_advice_none (category : pyval) (text : str) (info : ExtractedInfo) :
  generate_legal_advice category text info = None ↔ hashable category = false.
Proof.
  destruct category as [|q|c|l|d]; simpl.
  - by rewrite generate_legal_advice_other.
  - by rewrite generate_legal_advice_other.
  - by rewrite generate_legal_advice_str.
  - unfold generate_legal_advice. by rewrite advice_templates_civil.
  - unfold generate_legal_advice. by rewrite advice_templates_civil.
Qed.

(** X3: [generate_legal_advice] raises exactly on a category that is no
    dictionary key (a list or a dict); on [None] or a number it answers with
    the civil template, like on an unknown string. *)
Theorem X3_advice_raises_only_on_unhashable_category
    (category : pyval) (text : str) (info : ExtractedInfo) :
  (generate_legal_advice category text info = None ↔ hashable category = false)
  ∧ (hashable category = true → (∀ c, category ≠ PyStr c) →
     ∃ adv, generate_legal_advice category text info = Some adv
            ∧ recommended_steps adv = steps civil_template ++ customization info
            ∧ applicable_laws adv = laws civil_template).
Proof.
  split; [apply generate_legal_advice_none |].
  intros Hh Hstr. eexists. split; [by apply generate_legal_advice_other |]. done.
Qed.

Lemma advice_defined_on_categorized classifier text text' info :
  ∃ adv,
    generate_legal_advice (category (categorize_legal_issue classifier text)) text' info
    = Some adv.
Proof.
  pose proof (categorize_hashable classifier text) as Hh.
  destruct (generate_legal_advice _ text' info) as [adv|] eqn:Hadv; [eauto |].
  apply generate_legal_advice_none in Hadv. congruence.
Qed.

(** X4: the category that [categorize_legal_issue] returns is always a
    dictionary key, so [generate_legal_advice] never raises on it, whatever
    the classifier answered. *)
Theorem X4_advice_defined_on_categorized classifier text text' info :
  hashable (category (categorize_legal_issue classifier text)) = true
  ∧ ∃ adv,
      generate_legal_advice (category (categorize_legal_issue classifier text)) text' info
      = Some adv.
Proof. split; [apply categorize_hashable | apply advice_defined_on_categorized]. Qed.

Lemma legal_categories_keys (c : str) :
  c ∈ known_categories ↔ is_Some (legal_categories !! c).
Proof.
  unfold legal_categories, known_categories. split.
  - intros Hin. destruct (list_to_map legal_categories_items !! c) eqn:Hl; [eauto |].
    by apply not_elem_of_list_to_map_2 in Hl.
  - intros [subs Hl]. apply elem_of_list_to_map_2 in Hl.
    apply list_elem_of_fmap. by exists (c, subs).
Qed.

Lemma legal_categories_five (c : str) (subs : list str) :
  legal_categories !! c = Some subs → length subs = 5%nat.
Proof.
  intros Hl. apply elem_of_list_to_map_2 in Hl.
  unfold legal_categories_items in Hl.
  repeat (apply elem_of_cons in Hl as [[= -> ->] | Hl]);
    try (by apply elem_of_nil in Hl); done.
Qed.

Lemma categorize_subcategories classifier text :
  subcategories (categorize_legal_issue classifier text)
  = match category (categorize_legal_issue classifier text) with
    | PyStr c => default [] (legal_categories !! c)
    | _ => []
    end.
Proof.
  destruct (classifier text known_categories) as [r|] eqn:Hc;
    [| by rewrite categorize_failure by auto].
  destruct (top_label r) as [l|] eqn:Hl;
    [| by rewrite categorize_failure by eauto 6].
  destruct (top_score r) as [s|] eqn:Hs;
    [| by rewrite categorize_failure by eauto 6].
  destruct (hashable l) eqn:Hh;
    [| by rewrite categorize_failure by eauto 8].
  by rewrite (categorize_success _ _ _ _ _ Hc Hl Hs Hh).
Qed.

(** X5: the subcategories always belong to the returned category: they are
    the five entries that [legal_categories] lists for it when the category
    is one of the six known strings, and empty otherwise (an unknown label,
    a label that is no string, or the fallback "general"). *)
Theorem X5_subcategories_follow_category classifier text :
  (∀ c, category (categorize_legal_issue classifier text) = PyStr c →
        c ∈ known_categories →
        legal_categories !! c
        = Some (subcategories (categorize_legal_issue classifier text))
        ∧ length (subcategories (categorize_legal_issue classifier text)) = 5%nat)
  ∧ ((∀ c, category (categorize_legal_issue classifier text) = PyStr c →
           c ∉ known_categories) →
     subcategories (categorize_legal_issue classifier text) = []).
Proof.
  rewrite categorize_subcategories. split.
  - intros c -> [subs Hsubs]%legal_categories_keys. rewrite Hsubs. simpl.
    split; [done | by eapply legal_categories_five].
  - intros Hunknown.
    destruct (category (categorize_legal_issue classifier text)) as [|q|c|l|d];
      try done.
    destruct (legal_categories !! c) as [subs|] eqn:Hl; [| done].
    destruct (Hunknown c eq_refl). apply legal_categories_keys. eauto.
Qed.

Lemma template_sizes (t : template) :
  t = civil_template ∨ (∃ c, (c, t) ∈ advice_templates_items) →
  length (steps t) = 5%nat ∧ length (laws t) = 4%nat.
Proof.
  intros [-> | [c Hin]]; [done |].
  unfold advice_templates_items in Hin.
  repeat (apply elem_of_cons in Hin as [[= -> ->] | Hin]);
    try (by apply elem_of_nil in Hin); done.
Qed.

Lemma template_for_sizes (c : str) :
  length (steps (template_for c)) = 5%nat ∧ length (laws (template_for c)) = 4%nat.
Proof.
  apply template_sizes. unfold template_for, advice_templates.
  destruct (list_to_map advice_templates_items !! c) as [t|] eqn:Hl; [| by left].
  right. exists c. by apply elem_of_list_to_map_2.
Qed.

Lemma customization_length (info : ExtractedInfo) :
  (length (customization info) ≤ 2)%nat.
Proof. unfold customization. destruct (amounts info), (dates info); simpl; lia. Qed.

(** X6: whenever [generate_legal_advice] returns, for any category, text and
    entities, there are exactly 4 applicable laws and between 5 and 7
    recommended steps. *)
Theorem X6_advice_sizes (category : pyval) (text : str) (info : ExtractedInfo) adv :
  generate_legal_advice category text info = Some adv →
  length (applicable_laws adv) = 4%nat
  ∧ (5 ≤ length (recommended_steps adv) ≤ 7)%nat.
Proof.
  intros Hadv. pose proof (customization_length info) as Hcust.
  destruct category as [|q|c|l|d].
  - rewrite generate_legal_advice_other in Hadv by done.
    injection Hadv as <-. cbn [recommended_steps applicable_laws length]. lia.
  - rewrite generate_legal_advice_other in Hadv by done.
    injection Hadv as <-. cbn [recommended_steps applicable_laws length]. lia.
  - rewrite generate_legal_advice_str in Hadv. injection Hadv as <-.
    cbn [recommended_steps applicable_laws].
    destruct (template_for_sizes c) as [Hsteps Hlaws].
    rewrite length_app, Hsteps, Hlaws. lia.
  - rewrite (proj2 (generate_legal_advice_none (PyList l) text info)) in Hadv; done.
  - rewrite (proj2 (generate_legal_advice_none (PyDict d) text info)) in Hadv; done.
Qed.

End CategoryAdvice.

Lemma X3_witness :
  ∃ adv,
    @generate_legal_advice ascii_tables PyNone (py "a debt") no_entities = Some adv
    ∧ recommended_steps adv = steps civil_template ++ customization no_entities
    ∧ applicable_laws adv = laws civil_template.
Proof.
  apply (proj2 (@X3_advice_raises_only_on_unhashable_category
                  ascii_tables PyNone (py "a debt") no_entities)).
  - reflexivity.
  - intros c. discriminate.
Defined.

Lemma X5_witness :
  legal_categories !! py "civil"
  = Some (subcategories
            (categorize_legal_issue
               (λ _ _, Some (classification (py "civil") (9 # 10))) (py "a debt")))
  ∧ length (subcategories
              (categorize_legal_issue
                 (λ _ _, Some (classification (py "civil") (9 # 10))) (py "a debt")))
    = 5%nat.
Proof.
  apply (proj1 (X5_subcategories_follow_category
                  (λ _ _, Some (classification (py "civil") (9 # 10))) (py "a debt"))
           (py "civil")).
  - vm_compute. reflexivity.
  - compute_done.
Defined.

Lemma X6_witness :
  length (laws family_template) = 4%nat
  ∧ (5 ≤ length (steps family_template ++ [limitation_step]) ≤ 7)%nat.
Proof.
  apply (@X6_advice_sizes ascii_tables (PyStr (py "family")) (py "a divorce")
           {| parties_involved := []; legal_keywords := [];
              dates := [py "1/2/2020"]; amounts := []; locations := [] |}
           {| recommended_steps := steps family_template ++ [limitation_step];
              applicable_laws := laws family_template;
              urgency_level := LOW |}).
  vm_compute. reflexivity.
Defined.

(** ** More on urgency *)

Section UrgencyTiers.

Context `{Unicode}.

Lemma tier_of_score_mono (a b : Z) :
  (a ≤ b)%Z → tier_le (tier_of_score a) (tier_of_score b).
Proof.
  intros Hab. unfold tier_le, tier_of_score.
  destruct (3 <=? a)%Z eqn:Ha3, (3 <=? b)%Z eqn:Hb3,
           (1 <=? a)%Z eqn:Ha1, (1 <=? b)%Z eqn:Hb1; simpl; lia.
Qed.

Lemma tier_of_score_low (z : Z) : tier_of_score z = LOW ↔ (z < 1)%Z.
Proof.
  unfold tier_of_score.
  destruct (3 <=? z)%Z eqn:H3; [| destruct (1 <=? z)%Z eqn:H1];
    (split; [intros Heq | intros Hlt]); try done; lia.
Qed.

Lemma tier_of_score_high (z : Z) : tier_of_score z = HIGH ↔ (3 ≤ z)%Z.
Proof.
  unfold tier_of_score.
  destruct (3 <=? z)%Z eqn:H3; [| destruct (1 <=? z)%Z eqn:H1];
    (split; [intros Heq | intros Hlt]); try done; lia.
Qed.

Lemma keyword_hits_zero (text : str) :
  keyword_hits text = 0%nat
  ↔ ∀ keyword, keyword ∈ urgent_keywords →
               ¬ ∃ pre post, str_lower text = pre ++ keyword ++ post.
Proof.
  unfold keyword_hits. rewrite length_zero_iff_nil. split.
  - intros Hnil keyword Hin Hsub%contains_spec.
    pose proof (filter_nil_not_elem_of _ _ keyword Hnil) as Hnot.
    apply Hnot; [by rewrite Hsub | done].
  - intros Hnone. apply elem_of_nil_inv. intros keyword.
    rewrite list_elem_of_filter. intros [Hc Hin].
    apply (Hnone keyword Hin). apply contains_spec. by destruct (contains _ _).
Qed.

(** X7: for a fixed category, the tier never decreases when the number of
    distinct urgent keywords present does not decrease. *)
Theorem X7_urgency_monotone_in_keyword_hits (text text' : str) (category : pyval) :
  (keyword_hits text ≤ keyword_hits text')%nat →
  tier_le (assess_urgency text category) (assess_urgency text' category).
Proof.
  intros Hle. rewrite !assess_urgency_score. apply tier_of_score_mono. lia.
Qed.

(** X8: the tier is LOW exactly when no urgent keyword occurs in the
    lower-cased text and the category is not "criminal"; it is HIGH exactly
    when at least three distinct keywords occur, or at least one together
    with the category "criminal". *)
Theorem X8_urgency_low_and_high (text : str) (category : pyval) :
  (assess_urgency text category = LOW
   ↔ (∀ keyword, keyword ∈ urgent_keywords →
                 ¬ ∃ pre post, str_lower text = pre ++ keyword ++ post)
     ∧ category ≠ PyStr (py "criminal"))
  ∧ (assess_urgency text category = HIGH
     ↔ (3 ≤ keyword_hits text)%nat
       ∨ ((1 ≤ keyword_hits text)%nat ∧ category = PyStr (py "criminal"))).
Proof.
  rewrite <- keyword_hits_zero, assess_urgency_score.
  assert (Hbonus : (criminal_bonus category = 2%Z ∧ category = PyStr (py "criminal"))
                   ∨ (criminal_bonus category = 0%Z
                      ∧ category ≠ PyStr (py "criminal"))).
  { unfold criminal_bonus, eq_str. destruct category; try (right; done).
    case_bool_decide; [left | right]; split; congruence. }
  rewrite tier_of_score_low, tier_of_score_high.
  destruct Hbonus as [[Hb Hc] | [Hb Hc]]; rewrite Hb.
  - split; split.
    + lia.
    + intros [_ Hne]. done.
    + intros H3. right. split; [lia | done].
    + intros [H3 | [H1 _]]; lia.
  - split; split.
    + intros H1. split; [lia | done].
    + intros [H0 _]. lia.
    + intros H3. left. lia.
    + intros [H3 | [_ Heq]]; [lia | done].
Qed.

End UrgencyTiers.

Lemma X7_witness :
  tier_le (@assess_urgency ascii_tables (py "an urgent matter") (PyStr (py "civil")))
          (@assess_urgency ascii_tables (py "urgent threat of eviction")
             (PyStr (py "civil"))).
Proof.
  apply (@X7_urgency_monotone_in_keyword_hits ascii_tables).
  vm_compute. lia.
Defined.

(** ** Keywords that contain other keywords *)

Section KeywordOverlap.

Context `{Unicode}.

Lemma contains_trans (a b c : str) :
  contains a b = true → contains b c = true → contains a c = true.
Proof.
  rewrite !contains_spec.
  intros (pre & post & ->) (pre' & post' & ->).
  exists (pre' ++ pre), (post ++ post'). by rewrite <- !app_assoc.
Qed.

Lemma keyword_implied (text w1 w2 : str) :
  w2 ∈ all_keywords →
  contains (str_lower w2) (str_lower w1) = true →
  w1 ∈ legal_keywords (extract_key_info text) →
  w2 ∈ legal_keywords (extract_key_info text).
Proof.
  rewrite legal_keywords_filter, !list_elem_of_filter.
  intros Hin Hsub [Hc _]. split; [| done].
  apply Is_true_true. eapply contains_trans; [done |]. by apply Is_true_true.
Qed.

(** X9: "law" is a substring of "lawyer", and "वाद" of "विवाद": whenever
    the longer word is extracted as a legal keyword, the shorter one is
    extracted too (lower-casing leaves the four words as they are). *)
Theorem X9_contained_keywords_are_extracted_too (text long short : str) :
  (long, short) ∈ [(py "lawyer", py "law"); (py "विवाद", py "वाद")] →
  str_lower long = long → str_lower short = short →
  long ∈ legal_keywords (extract_key_info text) →
  short ∈ legal_keywords (extract_key_info text).
Proof.
  intros Hpair Hl Hs. apply keyword_implied.
  - repeat (apply elem_of_cons in Hpair as [[= -> ->] | Hpair]);
      [compute_done | compute_done | by apply elem_of_nil in Hpair].
  - rewrite Hl, Hs.
    repeat (apply elem_of_cons in Hpair as [[= -> ->] | Hpair]);
      [by vm_compute | by vm_compute | by apply elem_of_nil in Hpair].
Qed.

End KeywordOverlap.

Lemma X9_witness :
  py "law" ∈ legal_keywords (@extract_key_info ascii_tables (py "I need a Lawyer")).
Proof.
  apply (@X9_contained_keywords_are_extracted_too ascii_tables
           (py "I need a Lawyer") (py "lawyer") (py "law")).
  - compute_done.
  - vm_compute. reflexivity.
  - vm_compute. reflexivity.
  - compute_done.
Defined.

(** ** Amounts *)

Section Amounts.

Context `{Unicode}.

Implicit Types (r : regex) (P Q : str → Prop).

Lemma matches_weaken r P Q :
  matches_all r P → (∀ m, P m → Q m) → matches_all r Q.
Proof. intros Hr HPQ prev s m q s' Hin. eapply HPQ, Hr, Hin. Qed.

Lemma matches_seq r1 r2 P1 P2 :
  matches_all r1 P1 → matches_all r2 P2 →
  matches_all (Seq r1 r2) (λ m, ∃ m1 m2, m = m1 ++ m2 ∧ P1 m1 ∧ P2 m2).
Proof.
  intros H1 H2 prev s m q s'. rewrite elem_of_run_seq.
  intros (m1 & p1 & s1 & m2 & p2 & s2 & Hm1 & Hm2 & [= -> -> ->]).
  exists m1, m2. split_and!; [done | by eapply H1 | by eapply H2].
Qed.

Lemma matches_alt r1 r2 P :
  matches_all r1 P → matches_all r2 P → matches_all (Alt r1 r2) P.
Proof.
  intros H1 H2 prev s m q s'. simpl. rewrite elem_of_app.
  intros [Hin | Hin]; [by eapply H1 | by eapply H2].
Qed.

Lemma matches_rep_class (p : char → bool) lo hi :
  matches_all (Rep (Class p) lo hi) (λ m, Forall p m ∧ (lo ≤ length m)%nat).
Proof.
  intros prev s m q s' Hin. apply elem_of_rep_class in Hin as (_ & Hall & Hlen & _).
  split; [done | lia].
Qed.

Lemma matches_rep r lo hi P :
  matches_all r P →
  matches_all (Rep r lo hi) (λ m, ∃ ms, m = concat ms ∧ Forall P ms).
Proof.
  intros Hr prev s. cbn [run]. generalize (from_option id (length s) hi).
  intros n. revert lo prev s. induction n as [|n IH]; intros lo prev s m q s'.
  - cbn [rep_run]. rewrite elem_of_stop. intros [_ [= -> _ _]]. by exists [].
  - cbn [rep_run]. rewrite elem_of_app, elem_of_seq_run, elem_of_stop.
    intros [(m1 & p1 & s1 & m2 & p2 & s2 & Hm1 & Hm2 & [= -> -> ->])
           | [_ [= -> _ _]]]; [| by exists []].
    apply IH in Hm2 as (ms & -> & Hms). exists (m1 :: ms).
    split; [done |]. constructor; [by eapply Hr | done].
Qed.

Lemma matches_literal (eqc : char → char → bool) (cs : str) :
  matches_all (literal eqc cs) (λ m, Forall2 (λ c x, eqc c x) cs m).
Proof.
  induction cs as [|c cs IH]; intros prev s m q s'.
  - cbn [literal foldr run]. rewrite list_elem_of_singleton. intros [= -> _ _].
    constructor.
  - change (literal eqc (c :: cs)) with (Seq (Class (eqc c)) (literal eqc cs)).
    rewrite elem_of_run_seq.
    intros (m1 & p1 & s1 & m2 & p2 & s2 & Hm1 & Hm2 & [= -> -> ->]).
    apply elem_of_run_class in Hm1 as (x & s1' & -> & Hx & [= -> -> ->]).
    constructor; [done | by eapply IH].
Qed.

Lemma Forall2_eqb (cs m : str) : Forall2 (λ c x, N.eqb c x) cs m → m = cs.
Proof.
  induction 1 as [|c x cs m Hcx _ IH]; [done |].
  apply Is_true_true, N.eqb_eq in Hcx. by subst.
Qed.

Lemma matches_digits : matches_all (Plus (Class is_digit)) digit_run.
Proof. apply matches_rep_class. Qed.

Lemma matches_spaces : matches_all (Star (Class is_space)) (Forall is_space).
Proof.
  eapply matches_weaken; [apply matches_rep_class |]. by intros m [Hall _].
Qed.

Lemma matches_grouped :
  matches_all (Seq (Plus (Class is_digit))
                   (Star (Seq (literal N.eqb (py ",")) (Plus (Class is_digit)))))
              grouped_digits.
Proof.
  eapply matches_weaken.
  - apply matches_seq; [apply matches_digits |].
    apply matches_rep, matches_seq; [apply matches_literal | apply matches_digits].
  - intros m (ds & rest & -> & Hds & groups & -> & Hgroups).
    exists ds, groups. split_and!; [done | done |].
    eapply Forall_impl; [exact Hgroups |].
    intros group (comma & ds' & -> & Hcomma & Hds').
    apply Forall2_eqb in Hcomma as ->. eauto.
Qed.

Lemma matches_currency (sign : str) :
  sign ∈ [py "₹"; py "$"] →
  matches_all (Seq (literal N.eqb sign)
                   (Seq (Star (Class is_space))
                        (Seq (Plus (Class is_digit))
                             (Star (Seq (literal N.eqb (py ","))
                                        (Plus (Class is_digit)))))))
              is_amount.
Proof.
  intros Hsign. eapply matches_weaken.
  - apply matches_seq; [apply matches_literal |].
    apply matches_seq; [apply matches_spaces | apply matches_grouped].
  - intros m (sg & rest & -> & Hsg & sp & g & -> & Hsp & Hg).
    apply Forall2_eqb in Hsg as ->. left. by exists sign, sp, g.
Qed.

Lemma matches_unit (word : str) :
  word ∈ unit_words →
  matches_all (literal ci_eq word)
              (λ u, ∃ word, word ∈ unit_words ∧ Forall2 (λ c x, ci_eq c x) word u).
Proof.
  intros Hword. eapply matches_weaken; [apply matches_literal |].
  intros u Hu. eauto.
Qed.

Lemma matches_amount : matches_all amount_pattern is_amount.
Proof.
  unfold amount_pattern. cbn [alt foldr].
  apply matches_alt; [apply matches_currency; compute_done |].
  apply matches_alt; [apply matches_currency; compute_done |].
  eapply matches_weaken.
  - apply matches_seq; [apply matches_digits |].
    apply matches_seq; [apply matches_spaces |].
    repeat apply matches_alt; apply matches_unit; compute_done.
  - intros m (ds & rest & -> & Hds & sp & u & -> & Hsp & word & Hword & Hu).
    right. by exists ds, sp, word, u.
Qed.

Lemma amounts_sound (text d : str) :
  d ∈ amounts (extract_key_info text) →
  is_amount d ∧ ∃ pre post, text = pre ++ d ++ post.
Proof.
  simpl. unfold findall.
  intros (pre & post & q & -> & Hhead)%findall_from_sound.
  apply head_Some_elem_of, matches_amount in Hhead. eauto.
Qed.

(** X10: every string extracted into [amounts] is a substring of the text
    that is either a currency sign (₹ or $), whitespace and digits with
    comma-separated groups of digits, or digits, whitespace and one of the
    words rupees, dollars, lakh, crore in any letter case. *)
Theorem X10_amounts_have_the_shape_of_the_pattern (text d : str) :
  d ∈ amounts (extract_key_info text) →
  (currency_amount d ∨ unit_amount d)
  ∧ ∃ pre post, text = pre ++ d ++ post.
Proof.
  simpl. unfold findall.
  intros (pre & post & q & -> & Hhead)%findall_from_sound.
  apply head_Some_elem_of, matches_amount in Hhead.
  split; [exact Hhead | by exists pre, post].
Qed.

Lemma digit_run_has_digit (ds : str) : digit_run ds → Exists is_digit ds.
Proof.
  intros [Hall Hlen]. destruct ds as [|c ds]; [simpl in Hlen; lia |].
  apply Forall_cons in Hall as [Hc _]. by left.
Qed.

Lemma amount_has_digit (d : str) : is_amount d → Exists is_digit d.
Proof.
  intros [(sign & sp & g & -> & _ & _ & ds & groups & -> & Hds & _)
         | (ds & sp & word & u & -> & Hds & _)];
    rewrite !Exists_app; auto using digit_run_has_digit.
Qed.

Lemma date_has_digit (d : str) : is_date d → Exists is_digit d.
Proof.
  intros (g1 & c1 & g2 & c2 & g3 & -> & Hd1 & Hl1 & _).
  rewrite Exists_app. left. apply digit_run_has_digit. split; [done | lia].
Qed.

Lemma substring_has_digit (text pre d post : str) :
  text = pre ++ d ++ post → Exists is_digit d →
  ¬ Forall (λ c, ¬ is_digit c) text.
Proof.
  intros -> Hex Hall. rewrite !Forall_app in Hall. destruct Hall as (_ & Hd & _).
  apply Exists_exists in Hex as (c & Hin & Hc).
  rewrite Forall_forall in Hd. by apply (Hd c).
Qed.

(** X11: from a text without any digit, nothing is extracted as a date and
    nothing as an amount. *)
Theorem X11_no_digit_no_date_no_amount (text : str) :
  Forall (λ c, ¬ is_digit c) text →
  dates (extract_key_info text) = [] ∧ amounts (extract_key_info text) = [].
Proof.
  intros Hnone. split; apply elem_of_nil_inv; intros d Hd.
  - apply dates_sound in Hd as (Hdate & pre & post & Htext & _).
    by apply (substring_has_digit text pre d post Htext (date_has_digit d Hdate)).
  - apply amounts_sound in Hd as (Hamount & pre & post & Htext).
    by apply (substring_has_digit text pre d post Htext (amount_has_digit d Hamount)).
Qed.

End Amounts.

Lemma X10_witness :
  (@currency_amount ascii_tables (py "₹15,000") ∨ @unit_amount ascii_tables (py "₹15,000"))
  ∧ ∃ pre post, py "rent of ₹15,000 is due" = pre ++ py "₹15,000" ++ post.
Proof.
  apply (@X10_amounts_have_the_shape_of_the_pattern ascii_tables
           (py "rent of ₹15,000 is due")).
  compute_done.
Defined.

Lemma X11_witness :
  dates (@extract_key_info ascii_tables (py "my landlord sent a legal notice")) = []
  ∧ amounts (@extract_key_info ascii_tables (py "my landlord sent a legal notice")) = [].
Proof.
  apply (@X11_no_digit_no_date_no_amount ascii_tables).
  compute_done.
Defined.

(** ** The summary *)

Section Summary.

Context `{Unicode} `{Formatting}.

Implicit Types (s t ws : str) (cat : CategoryResult) (info : ExtractedInfo)
               (sent : pyval).



Example percent_overflow :
  @percent plain_formatting (PyNum (inject_Z (10 ^ 400))) = None
  ∧ @percent plain_formatting (PyNum (1 # 32)) = Some (py "3.12%")
  ∧ @percent plain_formatting (PyNum (3 # 2)) = Some (py "150.00%").
Proof. by vm_compute. Qed.

Lemma half_converts : converts_to_float (1 # 2) = true.
Proof. by vm_compute. Qed.

Lemma half_formattable : formattable (PyNum (1 # 2)).
Proof. exists (1 # 2)%Q. split; [done | apply half_converts]. Qed.


Lemma lstrip_spaces ws s : Forall is_space ws → lstrip (ws ++ s) = lstrip s.
Proof.
  induction 1 as [|c ws Hc _ IH]; [done |]. simpl.
  by rewrite (Is_true_true_1 _ Hc).
Qed.

Lemma lstrip_app s t : lstrip s ≠ [] → lstrip (s ++ t) = lstrip s ++ t.
Proof.
  induction s as [|c s IH]; [done |]. simpl.
  destruct (is_space c); [exact IH | done].
Qed.

Lemma rstrip_spaces s ws : Forall is_space ws → rstrip (s ++ ws) = rstrip s.
Proof.
  intros Hws. unfold rstrip. rewrite reverse_app, lstrip_spaces; [done |].
  by apply Forall_reverse.
Qed.

Lemma rstrip_app s t : rstrip t ≠ [] → rstrip (s ++ t) = s ++ rstrip t.
Proof.
  intros Ht. unfold rstrip in *. rewrite reverse_app, lstrip_app.
  - by rewrite reverse_app, reverse_involutive.
  - intros Hnil. rewrite Hnil in Ht. done.
Qed.

Lemma rstrip_non_space s c : ¬ is_space c → rstrip (s ++ [c]) = s ++ [c].
Proof.
  intros Hc. unfold rstrip. rewrite reverse_app. simpl.
  destruct (is_space c); [done |].
  change (c :: reverse s) with (reverse [c] ++ reverse s).
  by rewrite <- reverse_app, reverse_involutive.
Qed.

(** Three facts of the whitespace table. *)
Section Whitespace.

Hypothesis newline_is_space : is_space 10.
Hypothesis blank_is_space : is_space 32.
Hypothesis star_is_no_space : ¬ is_space 42.

Lemma nl_spaces : Forall is_space nl.
Proof. by repeat constructor. Qed.

Lemma indent_spaces : Forall is_space indent.
Proof. by repeat constructor. Qed.

Lemma lstrip_non_space (c : char) (s : str) : ¬ is_space c → lstrip (c :: s) = c :: s.
Proof.
  intros Hc. simpl. destruct (is_space c); [by destruct Hc | reflexivity].
Qed.

Lemma strip_report (body tail : str) :
  rstrip tail ≠ [] →
  strip (nl ++ indent ++ py "**LEGAL SITUATION SUMMARY**" ++ body ++ tail ++ nl ++ indent)
  = py "**LEGAL SITUATION SUMMARY**" ++ body ++ rstrip tail.
Proof.
  intros Htail. unfold strip.
  rewrite (lstrip_spaces nl) by apply nl_spaces.
  rewrite (lstrip_spaces indent) by apply indent_spaces.
  assert (Hhead : py "**LEGAL SITUATION SUMMARY**"
                       = 42 :: py "*LEGAL SITUATION SUMMARY**")
    by (vm_compute; reflexivity).
  rewrite Hhead.
  assert (Hstar : lstrip (42 :: py "*LEGAL SITUATION SUMMARY**")
                  = 42 :: py "*LEGAL SITUATION SUMMARY**").
  { apply lstrip_non_space, star_is_no_space. }
  rewrite lstrip_app. 
  rewrite Hstar.
  2:{ rewrite Hstar. discriminate. }
  assert (Hrt : rstrip (tail ++ nl ++ indent) = rstrip tail).
  { apply rstrip_spaces, Forall_app. split; [apply nl_spaces | apply indent_spaces]. }
  assert (Hbody : rstrip (body ++ tail ++ nl ++ indent) = body ++ rstrip tail).
  { rewrite rstrip_app; by rewrite Hrt. }
  rewrite rstrip_app.
  rewrite Hbody. done.
  rewrite Hbody.
  intros [_ Hnil]%app_eq_nil. done.
Qed.

Lemma lstrip_nil (s : str) : lstrip s = [] → Forall is_space s.
Proof.
  induction s as [|c s IH]; [done |]. simpl.
  destruct (is_space c) eqn:Hc; [| done].
  intros Hs. constructor; [by rewrite Hc | by apply IH].
Qed.

Lemma rstrip_nil (s : str) : rstrip s = [] → Forall is_space s.
Proof.
  unfold rstrip. intros Hs. apply (f_equal reverse) in Hs.
  rewrite reverse_involutive in Hs. apply lstrip_nil in Hs.
  apply Forall_reverse in Hs. by rewrite reverse_involutive in Hs.
Qed.

Lemma rstrip_description (t : str) :
  Forall is_space t →
  rstrip (py "**Situation Description:**" ++ nl ++ indent ++ t)
  = py "**Situation Description:**".
Proof.
  intros Ht. rewrite rstrip_spaces.
  - assert (Hd : py "**Situation Description:**"
                 = py "**Situation Description:*" ++ [42])
      by (vm_compute; reflexivity).
    rewrite Hd. apply rstrip_non_space, star_is_no_space.
  - rewrite !Forall_app. split_and!; [apply nl_spaces | apply indent_spaces | done].
Qed.

(** X13: the summary is stripped: it begins with the heading, and it ends
    with the translated text without its trailing whitespace, or with the
    line "**Situation Description:**" when the translated text is all
    whitespace (newline and blank are whitespace, the star is not). *)
Theorem X13_summary_is_stripped
    (original translated : str) (cat : CategoryResult) (info : ExtractedInfo)
    (sent : pyval) (report : str) :
  create_situation_summary original translated cat info sent = Some report →
  (rstrip translated ≠ [] →
   ∃ body, report = py "**LEGAL SITUATION SUMMARY**" ++ body
                      ++ py "**Situation Description:**" ++ nl ++ indent
                      ++ rstrip translated)
  ∧ (rstrip translated = [] →
     ∃ body, report = py "**LEGAL SITUATION SUMMARY**" ++ body
                        ++ py "**Situation Description:**").
Proof.
  unfold create_situation_summary. intros Hreport.
  destruct (title (category cat)) as [a|]; [| done].
  destruct (percent (confidence cat)) as [b|]; [| done].
  destruct (getitem_key sent (py "label")) as [l|]; [| done].
  destruct (getitem_key sent (py "score") ≫= percent) as [sc|]; [| done].
  cbn [mbind option_bind] in Hreport. injection Hreport as <-.
  set (body := nl
     ++ indent ++ nl
     ++ indent ++ py "**Primary Category:** " ++ a ++ nl
     ++ indent ++ py "**Confidence Level:** " ++ b ++ nl
     ++ indent ++ nl
     ++ indent ++ py "**Key Information Extracted:**" ++ nl
     ++ indent ++ py "- Legal Keywords Found: "
       ++ joined_or_none (legal_keywords info) ++ nl
     ++ indent ++ py "- Dates Mentioned: " ++ joined_or_none (dates info) ++ nl
     ++ indent ++ py "- Monetary Values: " ++ joined_or_none (amounts info) ++ nl
     ++ indent ++ nl
     ++ indent ++ py "**Situation Sentiment:** " ++ formatted l
       ++ py " (Confidence: " ++ sc ++ py ")" ++ nl
     ++ indent ++ nl
     ++ indent).
  split; intros Ht; exists body.
  - etrans; [| etrans;
      [apply (strip_report (body ++ py "**Situation Description:**" ++ nl ++ indent)
                translated Ht) |]].
    + f_equal. unfold body. by rewrite <- !app_assoc.
    + by rewrite <- !app_assoc.
  - apply rstrip_nil in Ht.
    etrans; [| etrans;
      [apply (strip_report body
                (py "**Situation Description:**" ++ nl ++ indent ++ translated)) |]].
    + f_equal. unfold body. by rewrite <- !app_assoc.
    + by rewrite rstrip_description.
    + rewrite rstrip_description by done. by vm_compute.
Qed.
End Whitespace.

End Summary.

(** ** The analysis handler *)

Section Pipeline.

Context `{Unicode} `{Formatting}.

Implicit Types (self : Analyzer) (input : str).

Lemma default_sentiment_label :
  getitem_key default_sentiment (py "label") = Some (PyStr (py "NEUTRAL")).
Proof. vm_compute. done. Qed.

Lemma summary_of_well_formed (original translated c : str) (q q' : Q)
    (subs : list str) (info : ExtractedInfo) (sent l : pyval) :
  converts_to_float q = true → converts_to_float q' = true →
  getitem_key sent (py "label") = Some l →
  getitem_key sent (py "score") = Some (PyNum q') →
  is_Some (create_situation_summary original translated
             {| category := PyStr c; confidence := PyNum q; subcategories := subs |}
             info sent).
Proof.
  intros Hq Hq' Hl Hs. unfold create_situation_summary.
  cbn [category confidence title percent]. rewrite Hq, Hl, Hs.
  cbn [mbind option_bind percent]. rewrite Hq'. eauto.
Qed.

Lemma summary_of_ill_formed (original translated : str) (cat : CategoryResult)
    (info : ExtractedInfo) (sent : pyval) :
  (∀ c, category cat ≠ PyStr c) ∨ (∀ q, confidence cat ≠ PyNum q)
  ∨ getitem_key sent (py "label") = None
  ∨ (∀ q, getitem_key sent (py "score") ≠ Some (PyNum q)) →
  create_situation_summary original translated cat info sent = None.
Proof.
  unfold create_situation_summary.
  intros [Hc | [Hq | [Hl | Hs]]].
  - destruct (category cat) as [| |c| |]; try done. by destruct (Hc c).
  - destruct (title (category cat)); [| done]. cbn [mbind option_bind].
    destruct (confidence cat) as [|q| | |]; try done. by destruct (Hq q).
  - destruct (title (category cat)); [| done]. cbn [mbind option_bind].
    destruct (percent (confidence cat)); [| done]. cbn [mbind option_bind].
    by rewrite Hl.
  - destruct (title (category cat)); [| done]. cbn [mbind option_bind].
    destruct (percent (confidence cat)); [| done]. cbn [mbind option_bind].
    destruct (getitem_key sent (py "label")); [| done]. cbn [mbind option_bind].
    destruct (getitem_key sent (py "score")) as [[|q| | |]|]; try done.
    by destruct (Hs q).
Qed.

Lemma analyze_of_parts self input text cat_c q subs l q' :
  converts_to_float q = true → converts_to_float q' = true →
  translate_text self input (py "en") = PyStr text →
  categorize_legal_issue (the_classifier self) text
  = {| category := PyStr cat_c; confidence := PyNum q; subcategories := subs |} →
  getitem_key (analyze_sentiment (the_sentiment_analyzer self) text) (py "label")
  = Some l →
  getitem_key (analyze_sentiment (the_sentiment_analyzer self) text) (py "score")
  = Some (PyNum q') →
  ∃ results,
    analyze self input = Some results
    ∧ original_text results = input
    ∧ translated_text results = text
    ∧ detected_lang results = detect_language self input
    ∧ category_info results = categorize_legal_issue (the_classifier self) text
    ∧ sentiment results = analyze_sentiment (the_sentiment_analyzer self) text
    ∧ extracted_info results = extract_key_info text
    ∧ generate_legal_advice (PyStr cat_c) text (extract_key_info text)
      = Some (advice results).
Proof.
  intros Hq Hq' Ht Hcat Hl Hs. unfold analyze. rewrite Ht.
  cbn [as_text mbind option_bind].
  destruct (summary_of_well_formed input text cat_c q q' subs
              (extract_key_info text) _ l Hq Hq' Hl Hs) as [report' Hreport].
  rewrite Hcat, Hreport. cbn [mbind option_bind category].
  rewrite generate_legal_advice_str. cbn [mbind option_bind].
  eexists. split; [reflexivity |].
  cbn [original_text translated_text detected_lang category_info sentiment
       extracted_info advice].
  repeat (split; [reflexivity |]). reflexivity.
Qed.





(** X15: when the classifier answers with a top label that is a dictionary
    key but no string ([None], a number), or with a top score that is no
    number, the analysis raises: [create_situation_summary] fails on
    [.title()] or on the [.2%] format, and nothing in [main] catches it. *)
Theorem X15_analysis_raises_on_ill_typed_classification self input r l s :
  (∀ t, the_classifier self t known_categories = Some r) →
  top_label r = Some l → top_score r = Some s → hashable l = true →
  (∀ c, l ≠ PyStr c) ∨ (∀ q, s ≠ PyNum q) →
  analyze self input = None
  ∧ ∀ stored, input ≠ [] → analyze_button self input stored = None.
Proof.
  intros Hr Hl Hs Hh Hill.
  assert (Hnone : analyze self input = None).
  { unfold analyze.
    destruct (as_text (translate_text self input (py "en"))) as [t|]; [| done].
    cbn [mbind option_bind].
    rewrite (categorize_success _ _ _ _ _ (Hr t) Hl Hs Hh).
    rewrite summary_of_ill_formed; [done |].
    cbn [category confidence]. destruct Hill; auto. }
  split; [done |]. intros stored Hne. destruct input; [done |].
  cbn [analyze_button]. by rewrite Hnone.
Qed.

(** X16: when language detection, classification and sentiment analysis all
    raise, the analysis still completes, on the untranslated input: detected
    language "en", the default category and sentiment, the entities of the
    input, and the advice of the civil template. *)
Theorem X16_analysis_falls_back_when_services_raise self input :
  translator_detect self input = None →
  the_classifier self input known_categories = None →
  the_sentiment_analyzer self input = None →
  ∃ results,
    analyze self input = Some results
    ∧ translated_text results = input
    ∧ detected_lang results = PyStr (py "en")
    ∧ category_info results = default_category
    ∧ sentiment results = default_sentiment
    ∧ extracted_info results = extract_key_info input
    ∧ recommended_steps (advice results)
      = steps civil_template ++ customization (extract_key_info input)
    ∧ applicable_laws (advice results) = laws civil_template.
Proof.
  intros Hd Hc Hs.
  assert (Hlang : detect_language self input = PyStr (py "en")).
  { unfold detect_language. by rewrite Hd. }
  assert (Ht : translate_text self input (py "en") = PyStr input).
  { unfold translate_text. by rewrite Hlang. }
  assert (Hcat : categorize_legal_issue (the_classifier self) input = default_category).
  { apply categorize_failure. by left. }
  assert (Hsent : analyze_sentiment (the_sentiment_analyzer self) input
                  = default_sentiment).
  { unfold analyze_sentiment. by rewrite Hs. }
  destruct (analyze_of_parts self input input (py "general") (1 # 2)%Q []
              (PyStr (py "NEUTRAL")) (1 # 2)%Q half_converts half_converts Ht Hcat)
    as (results & Hres & _ & Htt & Hdl & Hci & Hse & Hinfo & Hadv).
  { rewrite Hsent. apply default_sentiment_label. }
  { rewrite Hsent. apply default_sentiment_score. }
  exists results. rewrite Hres, Htt, Hdl, Hci, Hse, Hinfo, Hlang, Hcat, Hsent.
  destruct (advice_unknown (py "general") input (extract_key_info input)
              general_unknown) as (adv & Hadv' & Hsteps & Hlaws).
  rewrite Hadv in Hadv'. injection Hadv' as ->. by split_and!.
Qed.

End Pipeline.



Lemma X13_witness :
  ∃ report,
    @create_situation_summary ascii_tables plain_formatting
      (py "a debt ") (py "a debt ") default_category no_entities default_sentiment
    = Some report
    ∧ ∃ body,
        report = py "**LEGAL SITUATION SUMMARY**" ++ body
                   ++ py "**Situation Description:**" ++ nl ++ indent
                   ++ @rstrip ascii_tables (py "a debt ").
Proof.
  eexists. split; [vm_compute; reflexivity |].
  refine (proj1 (@X13_summary_is_stripped ascii_tables plain_formatting _ _ _
                   (py "a debt ") (py "a debt ") default_category no_entities
                   default_sentiment _ _) _).
  - exact I.
  - exact I.
  - intros [].
  - vm_compute. reflexivity.
  - vm_compute. discriminate.
Defined.


Lemma X15_witness :
  @analyze ascii_tables plain_formatting untyped_label_services (py "a debt") = None
  ∧ ∀ stored, py "a debt" ≠ [] →
      @analyze_button ascii_tables plain_formatting untyped_label_services
        (py "a debt") stored = None.
Proof.
  apply (@X15_analysis_raises_on_ill_typed_classification ascii_tables plain_formatting
           untyped_label_services (py "a debt")
           (PyDict {[ py "labels" := PyList [PyNone];
                      py "scores" := PyList [PyNum (9 # 10)] ]})
           PyNone (PyNum (9 # 10))).
  - intros t. reflexivity.
  - vm_compute. reflexivity.
  - vm_compute. reflexivity.
  - reflexivity.
  - left. intros c. discriminate.
Defined.

Lemma X16_witness :
  ∃ results,
    @analyze ascii_tables plain_formatting failing_services (py "a debt of $500")
    = Some results
    ∧ translated_text results = py "a debt of $500"
    ∧ detected_lang results = PyStr (py "en")
    ∧ category_info results = default_category
    ∧ sentiment results = default_sentiment
    ∧ extracted_info results = @extract_key_info ascii_tables (py "a debt of $500")
    ∧ recommended_steps (advice results)
      = steps civil_template
          ++ customization (@extract_key_info ascii_tables (py "a debt of $500"))
    ∧ applicable_laws (advice results) = laws civil_template.
Proof.
  apply (@X16_analysis_falls_back_when_services_raise ascii_tables plain_formatting
           failing_services (py "a debt of $500")); reflexivity.
Defined.
